(** * Suez water integration: update coordinator and legacy sensor

    A shallow embedding of
    [homeassistant/components/suez_water/coordinator.py] and of
    [homeassistant/components/suez_water/sensor.py]: the views on the
    coordinator, the legacy [SuezAggregatedSensor], and the entities
    with their registration.

    Coroutines are embedded in a small monad that threads the state of
    the world (the coordinator's attributes, a logical clock, the trace
    of remote calls and the log) and may end with a Python exception.
    State written before an exception is raised stays written, exactly
    as attribute assignments do in Python. *)

From Stdlib Require Import Floats Ascii.
From stdpp Require Import base option list strings pretty gmap.

Set Warnings "-register-all,-clear-no-such-hyp".

(** ** Exceptions *)

(** The exception classes the two modules raise, catch or let through.
    [UpdateFailed] carries its message and its [__cause__] (the
    [raise ... from err] chaining).  [PySuezError] is the provider
    library's own class, [TimeoutError], [KeyError] and [TypeError] are
    built in and [ConfigEntryError] and [UpdateFailed] belong to the
    framework; none derives from [PySuezError], so an
    [except PySuezError] clause matches the first constructor only. *)
Inductive Exn : Type :=
| PySuezError (msg : string)
| TimeoutError
| ConfigEntryError
| KeyError (key : string)
| TypeError
| UpdateFailed (msg : string) (cause : option Exn).

(** [str(err)] as interpolated in the f-string of [_async_update_data]. *)
Definition str_exn (e : Exn) : string :=
  match e with
  | PySuezError m => m
  | TimeoutError => ""
  | ConfigEntryError => ""
  | KeyError k => ("'" ++ k ++ "'")%string
  | TypeError => ""
  | UpdateFailed m _ => m
  end.

Definition is_PySuezError (e : Exn) : bool :=
  match e with PySuezError _ => true | _ => false end.

Definition is_UpdateFailed (e : Exn) : bool :=
  match e with UpdateFailed _ _ => true | _ => false end.

(** ** Provider data (pysuez.suez_data) *)

Record date := mk_date { year : nat; month : nat; day : nat }.

(** Only the attributes the integration reads are kept. *)
Record DayDataResult := mk_DayDataResult {
  dd_date : date;
  day_consumption : float;
}.

Record ConsumptionIndexContentResult := mk_ConsumptionIndexContentResult {
  content_index : float;
}.

Record ConsumptionIndexResult := mk_ConsumptionIndexResult {
  content : ConsumptionIndexContentResult;
}.

Record PriceResult := mk_PriceResult { pr_price : float }.

(** Modelled from the spec: [AlertResult] is declared by the provider
    library, not by this repository; the specification describes it as
    the provider-issued alert list, stored as it is returned. *)
Definition AlertResult := list string.

(** ** Remote calls *)

Inductive Reply (A : Type) : Type :=
| Returns (a : A)
| Raises (e : Exn).
Arguments Returns {A} a.
Arguments Raises {A} e.

(** One awaited remote call: how long the provider takes to answer (in
    the time units of [asyncio.timeout]) and what it answers. *)
Record Await (A : Type) := mk_Await { delay : nat; reply : Reply A }.
Arguments mk_Await {A} delay reply.
Arguments delay {A} a.
Arguments reply {A} a.

(** [SuezAsyncClient]: the two coroutines the coordinator awaits. *)
Record SuezAsyncClient := mk_SuezAsyncClient {
  check_credentials : Await bool;
  close_session : Await unit;
}.

(** [SuezData]: the four fetch coroutines and the attribution string. *)
Record SuezData := mk_SuezData {
  fetch_yesterday_data : Await (option DayDataResult);
  get_consumption_index : Await (option ConsumptionIndexResult);
  get_price : Await (option PriceResult);
  get_alerts : Await AlertResult;
  get_attribution_ : string;
}.

(** The names of the remote operations, as recorded in the call trace. *)
Inductive RemoteCall : Type :=
| CheckCredentials
| FetchYesterdayData
| GetConsumptionIndex
| GetPrice
| GetAlerts
| CloseSession.

Global Instance RemoteCall_eq_dec : EqDecision RemoteCall.
Proof. solve_decision. Defined.

(** ** The coordinator object and the world around it *)

(** The attributes [SuezWaterCoordinator.__init__] creates. *)
Record Coordinator := mk_Coordinator {
  _async_client : SuezAsyncClient;
  _data_api : SuezData;
  _last_day : option DayDataResult;
  _price : option float;
  alerts : option AlertResult;
  index : option ConsumptionIndexResult;
}.

Record World := mk_World {
  self : Coordinator;
  clock : nat;
  calls : list RemoteCall;
  logged : list string;
}.

Definition __init__ (async_client : SuezAsyncClient) (data_api : SuezData)
  : Coordinator :=
  {| _async_client := async_client;
     _data_api := data_api;
     _last_day := None;
     _price := None;
     alerts := None;
     index := None |}.

(** Attribute assignments [self.x = v]. *)
Definition set__last_day (v : option DayDataResult) (c : Coordinator) :=
  {| _async_client := _async_client c; _data_api := _data_api c;
     _last_day := v; _price := _price c; alerts := alerts c;
     index := index c |}.

Definition set__price (v : option float) (c : Coordinator) :=
  {| _async_client := _async_client c; _data_api := _data_api c;
     _last_day := _last_day c; _price := v; alerts := alerts c;
     index := index c |}.

Definition set_alerts (v : option AlertResult) (c : Coordinator) :=
  {| _async_client := _async_client c; _data_api := _data_api c;
     _last_day := _last_day c; _price := _price c; alerts := v;
     index := index c |}.

Definition set_index (v : option ConsumptionIndexResult) (c : Coordinator) :=
  {| _async_client := _async_client c; _data_api := _data_api c;
     _last_day := _last_day c; _price := _price c; alerts := alerts c;
     index := v |}.

(** ** The coroutine monad *)

Inductive Outcome (A : Type) : Type :=
| Return (a : A)
| Raise (e : Exn).
Arguments Return {A} a.
Arguments Raise {A} e.

(** A coroutine runs under the deadline of the enclosing
    [asyncio.timeout] block, if any, and transforms the world. *)
Definition M (A : Type) : Type :=
  option nat -> World -> Outcome A * World.

Definition ret {A} (a : A) : M A := fun _ w => (Return a, w).

Definition raise {A} (e : Exn) : M A := fun _ w => (Raise e, w).

Definition bind {A B} (m : M A) (k : A -> M B) : M B :=
  fun dl w =>
    match m dl w with
    | (Return a, w') => k a dl w'
    | (Raise e, w') => (Raise e, w')
    end.

Notation "'let!' x ':=' m 'in' k" := (bind m (fun x => k))
  (at level 10, x name, m at level 100, k at level 200).
Notation "m '>>' k" := (bind m (fun _ => k))
  (at level 90, right associativity).

(** [try: body except <handles> as err: handler err]. *)
Definition try_except {A} (body : M A) (handles : Exn -> bool)
    (handler : Exn -> M A) : M A :=
  fun dl w =>
    match body dl w with
    | (Raise e, w') => if handles e then handler e dl w' else (Raise e, w')
    | r => r
    end.

(** [async with asyncio.timeout(n): body].  The deadline is [n] time
    units after the block is entered.  When it expires the pending
    [await] is cancelled and the block raises [TimeoutError]; no
    function of this module catches the cancellation on its way out of
    the block, so the pending [await] raises [TimeoutError] directly. *)
Definition asyncio_timeout {A} (n : nat) (body : M A) : M A :=
  fun _ w => body (Some (clock w + n)) w.

Definition record_call (c : RemoteCall) (t : nat) (w : World) : World :=
  {| self := self w; clock := t; calls := calls w ++ [c];
     logged := logged w |}.

(** [await remote()]: the call is issued, and either the answer arrives
    strictly before the deadline or the deadline fires first. *)
Definition await {A} (c : RemoteCall) (a : Await A) : M A :=
  fun dl w =>
    let answered :=
      (match reply a with Returns v => Return v | Raises e => Raise e end,
       record_call c (clock w + delay a) w) in
    match dl with
    | None => answered
    | Some t =>
        if decide (clock w + delay a < t) then answered
        else (Raise TimeoutError, record_call c t w)
    end.

Definition modify (f : Coordinator -> Coordinator) : M unit :=
  fun _ w =>
    (Return tt,
     {| self := f (self w); clock := clock w; calls := calls w;
        logged := logged w |}).

Definition read {A} (f : Coordinator -> A) : M A :=
  fun _ w => (Return (f (self w)), w).

(** [_LOGGER.debug] / [_LOGGER.info] / [_LOGGER.warning]. *)
Definition log (msg : string) : M unit :=
  fun _ w =>
    (Return tt,
     {| self := self w; clock := clock w; calls := calls w;
        logged := logged w ++ [msg] |}).

(** [datetime.now()]. *)
Definition datetime_now : M nat := fun _ w => (Return (clock w), w).

(** ** coordinator.py *)

Definition _async_setup : M unit :=
  asyncio_timeout 20 (
    let! client := read _async_client in
    let! valid := await CheckCredentials (check_credentials client) in
    if negb valid then raise ConfigEntryError
    else
      let! client := read _async_client in
      await CloseSession (close_session client)).

Definition consumption_last_day (c : Coordinator) : option DayDataResult :=
  _last_day c.

Definition price (c : Coordinator) : option float := _price c.

Definition _fetch_last_day_consumption_data : M unit :=
  let! api := read _data_api in
  let! last_day := await FetchYesterdayData (fetch_yesterday_data api) in
  modify (set__last_day last_day) >>
  log "updated suez water consumption data".

Definition _fetch_consumption_index : M unit :=
  let! api := read _data_api in
  let! index := await GetConsumptionIndex (get_consumption_index api) in
  match index with
  | None => modify (set_index None)
  | Some i => modify (set_index (Some i))
  end >>
  log "updated suez water consumption index".

Definition _fetch_price : M unit :=
  let! api := read _data_api in
  let! price := await GetPrice (get_price api) in
  match price with
  | None => modify (set__price None)
  | Some p => modify (set__price (Some (pr_price p)))
  end >>
  log "updated suez water price".

Definition _fetch_alerts : M unit :=
  let! api := read _data_api in
  let! a := await GetAlerts (get_alerts api) in
  modify (set_alerts (Some a)).

Definition _async_update_data : M (gmap string nat) :=
  try_except
    (asyncio_timeout 60 (
       _fetch_last_day_consumption_data >>
       _fetch_consumption_index >>
       _fetch_price >>
       _fetch_alerts >>
       (let! client := read _async_client in
        await CloseSession (close_session client)) >>
       log "Suez update completed" >>
       let! now := datetime_now in
       ret {[ "update" := now ]}))
    is_PySuezError
    (fun err =>
       raise (UpdateFailed
                ("Suez coordinator error communicating with API: "
                 ++ str_exn err)%string
                (Some err))).

Definition get_attribution (c : Coordinator) : string :=
  get_attribution_ (_data_api c).

(** ** Reading a cycle off the provider's script *)

(** The four snapshot fields a cycle assigns. *)
Definition snapshot (c : Coordinator) :
    option DayDataResult * option ConsumptionIndexResult
    * option float * option AlertResult :=
  (_last_day c, index c, _price c, alerts c).

(** The remote calls of one cycle, in program order. *)
Definition cycle_calls : list RemoteCall :=
  [FetchYesterdayData; GetConsumptionIndex; GetPrice; GetAlerts; CloseSession].

Definition raised {A} (r : Reply A) : option Exn :=
  match r with Returns _ => None | Raises e => Some e end.

(** What decides the control flow of a cycle: for each of its five
    awaits, the delay of the answer and the exception it raises, if any. *)
Definition script (c : Coordinator) : list (nat * option Exn) :=
  [ (delay (fetch_yesterday_data (_data_api c)),
     raised (reply (fetch_yesterday_data (_data_api c))));
    (delay (get_consumption_index (_data_api c)),
     raised (reply (get_consumption_index (_data_api c))));
    (delay (get_price (_data_api c)),
     raised (reply (get_price (_data_api c))));
    (delay (get_alerts (_data_api c)),
     raised (reply (get_alerts (_data_api c))));
    (delay (close_session (_async_client c)),
     raised (reply (close_session (_async_client c)))) ].

(** Why an await did not return: the provider raised, or the deadline
    of the enclosing timeout block fired first. *)
Inductive Stop : Type :=
| Raised (e : Exn)
| Expired.

(** The first await of a script that does not return, counted from 0,
    with the reason; [None] when every await returns before the
    deadline.  [elapsed] is the time spent since the block was entered. *)
Fixpoint first_stop (timeout elapsed k : nat) (s : list (nat * option Exn))
  : option (nat * Stop) :=
  match s with
  | [] => None
  | (d, r) :: s' =>
      if decide (elapsed + d < timeout) then
        match r with
        | Some e => Some (k, Raised e)
        | None => first_stop timeout (elapsed + d) (S k) s'
        end
      else Some (k, Expired)
  end.

(** The time a script takes under a timeout: up to the answer of the
    first await that raises, up to the deadline when it fires, and the
    sum of the delays otherwise. *)
Fixpoint time_spent (timeout elapsed : nat) (s : list (nat * option Exn))
  : nat :=
  match s with
  | [] => elapsed
  | (d, r) :: s' =>
      if decide (elapsed + d < timeout) then
        match r with
        | Some _ => elapsed + d
        | None => time_spent timeout (elapsed + d) s'
        end
      else timeout
  end.

(** Where the cycle of a coordinator stops, under its 60-unit timeout. *)
Definition cycle_stop (c : Coordinator) : option (nat * Stop) :=
  first_stop 60 0 0 (script c).

(** The [except PySuezError as err: raise UpdateFailed(...) from err]
    clause, applied to the exception that leaves the timeout block. *)
Definition reraised (e : Exn) : Exn :=
  if is_PySuezError e then
    UpdateFailed
      ("Suez coordinator error communicating with API: " ++ str_exn e)%string
      (Some e)
  else e.

(** The value a reply carries, when it carries one. *)
Definition returned {A} (r : Reply A) : option A :=
  match r with Returns v => Some v | Raises _ => None end.

(** The snapshot fields after a cycle whose first [n] awaits returned:
    each completed step has assigned its field, the others have not. *)
Definition fields_after (n : nat) (c : Coordinator) :
    option DayDataResult * option ConsumptionIndexResult
    * option float * option AlertResult :=
  (if decide (1 ≤ n)
   then default None (returned (reply (fetch_yesterday_data (_data_api c))))
   else _last_day c,
   if decide (2 ≤ n)
   then default None (returned (reply (get_consumption_index (_data_api c))))
   else index c,
   if decide (3 ≤ n)
   then pr_price <$>
          default None (returned (reply (get_price (_data_api c))))
   else _price c,
   if decide (4 ≤ n)
   then returned (reply (get_alerts (_data_api c)))
   else alerts c).

(** The number of awaits of a cycle that returned. *)
Definition completed (c : Coordinator) : nat :=
  match cycle_stop c with
  | None => 5
  | Some (k, _) => k
  end.

(** ** Auxiliary definitions for the run of one step *)

Definition with_self (f : Coordinator -> Coordinator) (w : World) : World :=
  {| self := f (self w); clock := clock w; calls := calls w;
     logged := logged w |}.

Definition with_log (msg : string) (w : World) : World :=
  {| self := self w; clock := clock w; calls := calls w;
     logged := logged w ++ [msg] |}.

(** The three ways an await under a deadline ends. *)
Definition awaited {A} (c : RemoteCall) (a : Await A) (t : nat) (w : World)
    (k : A -> World -> Outcome unit * World) : Outcome unit * World :=
  if decide (clock w + delay a < t) then
    match reply a with
    | Returns v => k v (record_call c (clock w + delay a) w)
    | Raises e => (Raise e, record_call c (clock w + delay a) w)
    end
  else (Raise TimeoutError, record_call c t w).

(** The calls a run has added to the trace. *)
Definition new_calls (before after : World) : list RemoteCall :=
  drop (length (calls before)) (calls after).

(** ** The host framework *)

(** Modelled from the spec: who awaits a cycle, the timer of the
    scheduler or an observer; the base class that keeps the waiters is
    not part of the sources at hand. *)
Inductive Waiter : Type :=
| Timer
| Observer (id : nat).

(** Modelled from the spec: the life cycle of a coordinator is kept by
    the shared-refresh base class [DataUpdateCoordinator], which is not
    part of the sources at hand.  The states are those of the
    specification's state machine (section 4.1); a running cycle
    carries the callers that await it. *)
Inductive Phase : Type :=
| Uninitialized
| Ready
| Refreshing (waiters : list Waiter)
| Failed (e : Exn).

(** Modelled from the spec: the host of one coordinator, with the
    outcomes delivered so far to the observers that awaited a cycle. *)
Record Host := mk_Host {
  phase : Phase;
  world : World;
  delivered : list (nat * Outcome (gmap string nat));
}.

(** Modelled from the spec: what happens to a host, [setup()],
    [requestRefresh()] by an observer, [timerTick()], the end of the
    running cycle, and a change of the answers of the remote side. *)
Inductive Event : Type :=
| Setup
| RequestRefresh (id : nat)
| TimerTick
| CycleEnds
| Provider (async_client : SuezAsyncClient) (data_api : SuezData).

(** Modelled from the spec: [requestRefresh()] and [timerTick()], which
    the base class implements.  A request made while a cycle is running
    joins it; a request made in [Ready] starts one; before a successful
    [setup()] no cycle runs. *)
Definition join (x : Waiter) (h : Host) : Host :=
  match phase h with
  | Ready =>
      {| phase := Refreshing [x]; world := world h;
         delivered := delivered h |}
  | Refreshing ws =>
      {| phase := Refreshing (ws ++ [x]); world := world h;
         delivered := delivered h |}
  | Uninitialized | Failed _ => h
  end.

(** Modelled from the spec: the outcome of a cycle is broadcast to all
    its waiters; the timer swallows it, an observer receives it. *)
Definition broadcast (o : Outcome (gmap string nat)) (ws : list Waiter)
  : list (nat * Outcome (gmap string nat)) :=
  flat_map (fun x => match x with Timer => [] | Observer id => [(id, o)] end)
    ws.

(** Modelled from the spec: the transitions of the host.  [Setup] runs
    [_async_setup] once; invalid credentials are terminal, any other
    failure leaves the coordinator uninitialised.  [CycleEnds] performs
    the fetches of the running cycle with [_async_update_data] and
    returns to [Ready] whatever the outcome.  [Provider] replaces the
    scripted answers of the remote side. *)
Definition step (ev : Event) (h : Host) : Host :=
  match ev with
  | Setup =>
      match phase h with
      | Uninitialized =>
          let r := _async_setup None (world h) in
          {| phase := match r.1 with
                      | Return _ => Ready
                      | Raise ConfigEntryError => Failed ConfigEntryError
                      | Raise _ => Uninitialized
                      end;
             world := r.2;
             delivered := delivered h |}
      | _ => h
      end
  | RequestRefresh id => join (Observer id) h
  | TimerTick => join Timer h
  | CycleEnds =>
      match phase h with
      | Refreshing ws =>
          let r := _async_update_data None (world h) in
          {| phase := Ready; world := r.2;
             delivered := delivered h ++ broadcast r.1 ws |}
      | _ => h
      end
  | Provider async_client data_api =>
      {| phase := phase h;
         world :=
           with_self
             (fun c =>
                {| _async_client := async_client; _data_api := data_api;
                   _last_day := _last_day c; _price := _price c;
                   alerts := alerts c; index := index c |})
             (world h);
         delivered := delivered h |}
  end.

(** Modelled from the spec: a host going through a sequence of events. *)
Definition run (evs : list Event) (h : Host) : Host :=
  foldl (fun h ev => step ev h) h evs.

(** Modelled from the spec: the host of a freshly created coordinator,
    before [setup()]. *)
Definition boot (async_client : SuezAsyncClient) (data_api : SuezData)
    (now : nat) : Host :=
  {| phase := Uninitialized;
     world := {| self := __init__ async_client data_api; clock := now;
                 calls := []; logged := [] |};
     delivered := [] |}.

(** ** sensor.py: the coordinator views *)

(** [SuezLastDayConsumptionSensor.native_value]. *)
Definition last_day_native_value (c : Coordinator) : option float :=
  match consumption_last_day c with
  | None => None
  | Some d => Some (day_consumption d)
  end.

(** [SuezLastDayConsumptionSensor.extra_state_attributes]. *)
Definition last_day_extra_state_attributes (c : Coordinator)
  : option (gmap string date) :=
  match consumption_last_day c with
  | None => None
  | Some d => Some {[ "date" := dd_date d ]}
  end.

(** [SuezPriceSensor.native_value]. *)
Definition price_native_value (c : Coordinator) : option float := price c.

(** [SuezForeverTotalIncreasingSensor.native_value]. *)
Definition total_native_value (c : Coordinator) : option float :=
  match index c with
  | None => None
  | Some i => Some (content_index (content i))
  end.

(** ** sensor.py: the legacy aggregated sensor *)

(** The Python values the legacy client hands over. *)
Inductive PyVal : Type :=
| VNone
| VFloat (f : float)
| VStr (s : string)
| VDict (d : gmap string PyVal).

(** The synchronous [SuezClient]: the two attributes the sensor reads. *)
Record SuezClient := mk_SuezClient {
  state : PyVal;
  attributes : gmap string PyVal;
}.

Record SuezAggregatedSensor := mk_SuezAggregatedSensor {
  client : SuezClient;
  _attr_native_value : PyVal;
  _attr_available : bool;
  _attr_attribution : PyVal;
  _attr_extra_state_attributes : gmap string PyVal;
  sensor_log : list (string * option PyVal);
}.

(** Synchronous methods of the sensor: a state transformer that may end
    with an exception. *)
Definition Sync (A : Type) : Type :=
  SuezAggregatedSensor -> Outcome A * SuezAggregatedSensor.

Definition sret {A} (a : A) : Sync A := fun s => (Return a, s).

Definition sraise {A} (e : Exn) : Sync A := fun s => (Raise e, s).

Definition sbind {A B} (m : Sync A) (k : A -> Sync B) : Sync B :=
  fun s =>
    match m s with
    | (Return a, s') => k a s'
    | (Raise e, s') => (Raise e, s')
    end.

Notation "'let*' x ':=' m 'in' k" := (sbind m (fun x => k))
  (at level 10, x name, m at level 100, k at level 200).
Notation "m ';;;' k" := (sbind m (fun _ => k))
  (at level 90, right associativity).

Definition stry_except {A} (body : Sync A) (handles : Exn -> bool)
    (handler : Sync A) : Sync A :=
  fun s =>
    match body s with
    | (Raise e, s') => if handles e then handler s' else (Raise e, s')
    | r => r
    end.

Definition lift {A} (o : Outcome A) : Sync A := fun s => (o, s).

(** [v[k]] for reading. *)
Definition getitem (v : PyVal) (k : string) : Outcome PyVal :=
  match v with
  | VDict d =>
      match d !! k with
      | Some x => Return x
      | None => Raise (KeyError k)
      end
  | VNone | VFloat _ | VStr _ => Raise TypeError
  end.

(** The items [for item in v] goes through, when [v] can be iterated:
    the keys of a dict, the characters of a string. *)
Definition iter (v : PyVal) : Outcome (list string) :=
  match v with
  | VDict d => Return (map fst (map_to_list d))
  | VStr s => Return (map (fun a => String a EmptyString) (String.list_ascii_of_string s))
  | VNone | VFloat _ => Raise TypeError
  end.

Fixpoint for_each {A} (items : list A) (body : A -> Sync unit) : Sync unit :=
  match items with
  | [] => sret tt
  | x :: rest => body x ;;; for_each rest body
  end.

Definition sensor_with_client (c : SuezClient) (s : SuezAggregatedSensor) :=
  {| client := c; _attr_native_value := _attr_native_value s;
     _attr_available := _attr_available s;
     _attr_attribution := _attr_attribution s;
     _attr_extra_state_attributes := _attr_extra_state_attributes s;
     sensor_log := sensor_log s |}.

Definition set__attr_native_value (v : PyVal) : Sync unit := fun s =>
  (Return tt,
   {| client := client s; _attr_native_value := v;
      _attr_available := _attr_available s;
      _attr_attribution := _attr_attribution s;
      _attr_extra_state_attributes := _attr_extra_state_attributes s;
      sensor_log := sensor_log s |}).

Definition set__attr_available (b : bool) : Sync unit := fun s =>
  (Return tt,
   {| client := client s; _attr_native_value := _attr_native_value s;
      _attr_available := b;
      _attr_attribution := _attr_attribution s;
      _attr_extra_state_attributes := _attr_extra_state_attributes s;
      sensor_log := sensor_log s |}).

Definition set__attr_attribution (v : PyVal) : Sync unit := fun s =>
  (Return tt,
   {| client := client s; _attr_native_value := _attr_native_value s;
      _attr_available := _attr_available s;
      _attr_attribution := v;
      _attr_extra_state_attributes := _attr_extra_state_attributes s;
      sensor_log := sensor_log s |}).

Definition set_extra (m : gmap string PyVal) (s : SuezAggregatedSensor) :=
  {| client := client s; _attr_native_value := _attr_native_value s;
     _attr_available := _attr_available s;
     _attr_attribution := _attr_attribution s;
     _attr_extra_state_attributes := m;
     sensor_log := sensor_log s |}.

(** [self._attr_extra_state_attributes[k] = v]. *)
Definition extra_setitem (k : string) (v : PyVal) : Sync unit := fun s =>
  (Return tt, set_extra (<[k := v]> (_attr_extra_state_attributes s)) s).

(** [self._attr_extra_state_attributes[k][item] = v]. *)
Definition extra_setitem2 (k item : string) (v : PyVal) : Sync unit := fun s =>
  match _attr_extra_state_attributes s !! k with
  | None => (Raise (KeyError k), s)
  | Some (VDict d) =>
      (Return tt,
       set_extra (<[k := VDict (<[item := v]> d)]>
                    (_attr_extra_state_attributes s)) s)
  | Some _ => (Raise TypeError, s)
  end.

(** [self.client.attributes[k]]. *)
Definition client_attribute (k : string) : Sync PyVal := fun s =>
  match attributes (client s) !! k with
  | Some v => (Return v, s)
  | None => (Raise (KeyError k), s)
  end.

Definition sensor_logging (msg : string) (arg : option PyVal) : Sync unit :=
  fun s =>
    (Return tt,
     {| client := client s; _attr_native_value := _attr_native_value s;
        _attr_available := _attr_available s;
        _attr_attribution := _attr_attribution s;
        _attr_extra_state_attributes := _attr_extra_state_attributes s;
        sensor_log := sensor_log s ++ [(msg, arg)] |}).

(** The text stored under [deprecated]; its two sentences are separated
    by a line feed. *)
Definition deprecated_notice : string :=
  ("This sensor is deprecated and will be removed in a future version."
   ++ String (Ascii.ascii_of_nat 10)
        "Please move to another provided sensor, if you need access to some of the extra attributes let us know and will make them available as sensors.")%string.

Section LegacySensor.

(** [SuezClient.update()], the synchronous call to the provider: it
    may change the client and may raise. *)
Variable client_update : SuezClient -> Outcome unit * SuezClient.

Definition call_client_update : Sync unit := fun s =>
  let r := client_update (client s) in
  (r.1, sensor_with_client r.2 s).

(** The loop
    [for item in self.client.attributes[src]:
         self._attr_extra_state_attributes[dst][item] =
             self.client.attributes[src][item]]. *)
Definition copy_items (dst src : string) : Sync unit :=
  let* d := client_attribute src in
  let* items := lift (iter d) in
  for_each items (fun item =>
    let* d := client_attribute src in
    let* v := lift (getitem d item) in
    extra_setitem2 dst item v).

Definition _fetch_data : Sync unit :=
  stry_except
    (call_client_update ;;;
     (let* st := (fun s => (Return (state (client s)), s)) in
      set__attr_native_value st) ;;;
     set__attr_available true ;;;
     (let* a := client_attribute "attribution" in
      set__attr_attribution a) ;;;
     extra_setitem "this_month_consumption" (VDict ∅) ;;;
     copy_items "this_month_consumption" "thisMonthConsumption" ;;;
     extra_setitem "previous_month_consumption" (VDict ∅) ;;;
     copy_items "previous_month_consumption" "previousMonthConsumption" ;;;
     (let* v := client_attribute "highestMonthlyConsumption" in
      extra_setitem "highest_monthly_consumption" v) ;;;
     (let* v := client_attribute "lastYearOverAll" in
      extra_setitem "last_year_overall" v) ;;;
     (let* v := client_attribute "thisYearOverAll" in
      extra_setitem "this_year_overall" v) ;;;
     extra_setitem "history" (VDict ∅) ;;;
     copy_items "history" "history" ;;;
     extra_setitem "deprecated" (VStr deprecated_notice))
    is_PySuezError
    (set__attr_available false ;;;
     sensor_logging "Unable to fetch data" None).

(** [SensorEntity.native_value]. *)
Definition native_value (s : SuezAggregatedSensor) : PyVal :=
  _attr_native_value s.

Definition update : Sync unit :=
  _fetch_data ;;;
  let* v := (fun s => (Return (native_value s), s)) in
  sensor_logging "Suez data state is: %s" (Some v).

End LegacySensor.

(** ** Scripted providers *)

Definition in_time (dl : option nat) (w : World) (d : nat) : Prop :=
  match dl with
  | None => True
  | Some t => clock w + d < t
  end.

Definition yesterday_120 : DayDataResult :=
  {| dd_date := {| year := 2024; month := 1; day := 1 |};
     day_consumption := 120%float |}.

Definition index_4821_5 : ConsumptionIndexResult :=
  {| content := {| content_index := 4821.5%float |} |}.

Definition price_3_25 : PriceResult := {| pr_price := 3.25%float |}.

(** The scripted adapter of the specification's scenario: yesterday is
    120 L on 2024-01-01, the index is 4821.5, the price is 3.25 and
    there is no alert; [d1] to [d4] are the delays of the four answers. *)
Definition scripted_api (d1 d2 d3 d4 : nat) : SuezData :=
  {| fetch_yesterday_data := mk_Await d1 (Returns (Some yesterday_120));
     get_consumption_index := mk_Await d2 (Returns (Some index_4821_5));
     get_price := mk_Await d3 (Returns (Some price_3_25));
     get_alerts := mk_Await d4 (Returns []);
     get_attribution_ := "Data provided by toutsurmoneau.fr" |}.

Definition valid_client : SuezAsyncClient :=
  {| check_credentials := mk_Await 1 (Returns true);
     close_session := mk_Await 1 (Returns tt) |}.

Definition invalid_client : SuezAsyncClient :=
  {| check_credentials := mk_Await 1 (Returns false);
     close_session := mk_Await 1 (Returns tt) |}.

Definition fresh_world (async_client : SuezAsyncClient) (data_api : SuezData)
  : World :=
  {| self := __init__ async_client data_api; clock := 1000; calls := [];
     logged := [] |}.

(** A provider whose index fetch fails after yesterday's consumption was
    fetched. *)
Definition index_fails_api : SuezData :=
  {| fetch_yesterday_data := mk_Await 1 (Returns (Some yesterday_120));
     get_consumption_index := mk_Await 1 (Raises (PySuezError "offline"));
     get_price := mk_Await 1 (Returns (Some price_3_25));
     get_alerts := mk_Await 1 (Returns []);
     get_attribution_ := "" |}.

(** A provider that answers the price fetch too late. *)
Definition slow_price_api : SuezData :=
  {| fetch_yesterday_data := mk_Await 10 (Returns (Some yesterday_120));
     get_consumption_index := mk_Await 10 (Returns (Some index_4821_5));
     get_price := mk_Await 100 (Returns (Some price_3_25));
     get_alerts := mk_Await 1 (Returns []);
     get_attribution_ := "" |}.

(** A provider that has neither an index nor a price. *)
Definition no_data_api : SuezData :=
  {| fetch_yesterday_data := mk_Await 1 (Returns None);
     get_consumption_index := mk_Await 1 (Returns None);
     get_price := mk_Await 1 (Returns None);
     get_alerts := mk_Await 1 (Returns []);
     get_attribution_ := "" |}.

(** The event of a waiter asking for a refresh. *)
Definition trigger (x : Waiter) : Event :=
  match x with
  | Timer => TimerTick
  | Observer id => RequestRefresh id
  end.

(** A legacy client whose [update()] fails with a provider error. *)
Definition failing_update (c : SuezClient) : Outcome unit * SuezClient :=
  (Raise (PySuezError "down"), c).

(** A legacy client whose [update()] brings the figures of the day. *)
Definition working_update (c : SuezClient) : Outcome unit * SuezClient :=
  (Return tt,
   {| state := VFloat 120%float;
      attributes :=
        {[ "attribution" := VStr "Data provided by toutsurmoneau.fr";
           "thisMonthConsumption" :=
             VDict {[ "2024-01-01" := VFloat 120%float ]};
           "previousMonthConsumption" := VDict ∅;
           "highestMonthlyConsumption" := VFloat 9000%float;
           "lastYearOverAll" := VFloat 80000%float;
           "thisYearOverAll" := VFloat 120%float;
           "history" := VDict {[ "2023-12" := VFloat 7000%float ]} ]} |}).

(** A sensor that has already shown a value. *)
Definition shown_sensor : SuezAggregatedSensor :=
  {| client := {| state := VFloat 95%float; attributes := ∅ |};
     _attr_native_value := VFloat 95%float;
     _attr_available := true;
     _attr_attribution := VStr "Data provided by toutsurmoneau.fr";
     _attr_extra_state_attributes :=
       {[ "this_year_overall" := VFloat 95%float ]};
     sensor_log := [] |}.

(** ** sensor.py: the entities and their registration *)

Inductive DeviceEntryType : Type := SERVICE.

Inductive SensorDeviceClass : Type := WATER | MONETARY.

Inductive SensorStateClass : Type := TOTAL_INCREASING.

Record DeviceInfo := mk_DeviceInfo {
  identifiers : gset (string * string);
  entry_type : DeviceEntryType;
  manufacturer : string;
}.

(** [f"{counter_id}_{name}"]; [str] of an [int] is its decimal notation. *)
Definition unique_id (counter_id : Z) (name : string) : string :=
  (pretty counter_id ++ "_" ++ name)%string.

(** [DeviceInfo(identifiers={(DOMAIN, str(counter_id))},
    entry_type=DeviceEntryType.SERVICE, manufacturer="Suez")]. *)
Definition device_info (DOMAIN : string) (counter_id : Z) : DeviceInfo :=
  {| identifiers := {[ (DOMAIN, pretty counter_id) ]};
     entry_type := SERVICE;
     manufacturer := "Suez" |}.

(** What [SuezSensorEntity.__init__] and the class body assign.  The
    reference to the coordinator is not kept in the record: the views
    above read the coordinator as it is when they are asked. *)
Module SuezSensorEntity.

Record t := mk {
  _attr_has_entity_name : bool;
  _attr_extra_state_attributes : gmap string PyVal;
  _attr_translation_key : string;
  _attr_unique_id : string;
  _attr_device_info : DeviceInfo;
  _attr_attribution : string;
}.

Definition __init__ (DOMAIN : string) (coordinator : Coordinator)
    (counter_id : Z) (name : string) : t :=
  {| _attr_has_entity_name := true;
     _attr_extra_state_attributes := ∅;
     _attr_translation_key := name;
     _attr_unique_id := unique_id counter_id name;
     _attr_device_info := device_info DOMAIN counter_id;
     _attr_attribution := get_attribution coordinator |}.

End SuezSensorEntity.

(** What [SuezAggregatedSensor.__init__] and the class body assign. *)
Module SuezAggregatedSensorEntity.

Record t := mk {
  _attr_has_entity_name : bool;
  _attr_translation_key : string;
  client : SuezClient;
  _attr_extra_state_attributes : gmap string PyVal;
  _attr_unique_id : string;
  _attr_device_info : DeviceInfo;
}.

Definition __init__ (DOMAIN : string) (client : SuezClient) (counter_id : Z)
  : t :=
  {| _attr_has_entity_name := true;
     _attr_translation_key := "water_usage_yesterday";
     client := client;
     _attr_extra_state_attributes := ∅;
     _attr_unique_id := unique_id counter_id "water_usage_yesterday";
     _attr_device_info := device_info DOMAIN counter_id |}.

End SuezAggregatedSensorEntity.

(** The four sensor classes of the module, each with what its
    constructor assigned.  The legacy class carries a trailing
    underscore: its name is taken by the record of its state above. *)
Inductive Entity : Type :=
| SuezLastDayConsumptionSensor (e : SuezSensorEntity.t)
| SuezForeverTotalIncreasingSensor (e : SuezSensorEntity.t)
| SuezPriceSensor (e : SuezSensorEntity.t)
| SuezAggregatedSensor_ (e : SuezAggregatedSensorEntity.t).

Definition SuezLastDayConsumptionSensor__init__ (DOMAIN : string)
    (coordinator : Coordinator) (counter_id : Z) : Entity :=
  SuezLastDayConsumptionSensor
    (SuezSensorEntity.__init__ DOMAIN coordinator counter_id
       "water_usage_last_day").

Definition SuezPriceSensor__init__ (DOMAIN : string)
    (coordinator : Coordinator) (counter_id : Z) : Entity :=
  SuezPriceSensor
    (SuezSensorEntity.__init__ DOMAIN coordinator counter_id "price_sensor").

Definition SuezForeverTotalIncreasingSensor__init__ (DOMAIN : string)
    (coordinator : Coordinator) (counter_id : Z) : Entity :=
  SuezForeverTotalIncreasingSensor
    (SuezSensorEntity.__init__ DOMAIN coordinator counter_id
       "water_usage_forever_total").

Definition entity_unique_id (e : Entity) : string :=
  match e with
  | SuezLastDayConsumptionSensor e
  | SuezForeverTotalIncreasingSensor e
  | SuezPriceSensor e => SuezSensorEntity._attr_unique_id e
  | SuezAggregatedSensor_ e => SuezAggregatedSensorEntity._attr_unique_id e
  end.

Definition entity_device_info (e : Entity) : DeviceInfo :=
  match e with
  | SuezLastDayConsumptionSensor e
  | SuezForeverTotalIncreasingSensor e
  | SuezPriceSensor e => SuezSensorEntity._attr_device_info e
  | SuezAggregatedSensor_ e => SuezAggregatedSensorEntity._attr_device_info e
  end.

Definition entity_translation_key (e : Entity) : string :=
  match e with
  | SuezLastDayConsumptionSensor e
  | SuezForeverTotalIncreasingSensor e
  | SuezPriceSensor e => SuezSensorEntity._attr_translation_key e
  | SuezAggregatedSensor_ e => SuezAggregatedSensorEntity._attr_translation_key e
  end.

(** [_attr_device_class] of the four classes. *)
Definition entity_device_class (e : Entity) : SensorDeviceClass :=
  match e with
  | SuezLastDayConsumptionSensor _ => WATER
  | SuezForeverTotalIncreasingSensor _ => WATER
  | SuezPriceSensor _ => MONETARY
  | SuezAggregatedSensor_ _ => WATER
  end.

(** [_attr_state_class]: only the total sensor declares one. *)
Definition entity_state_class (e : Entity) : option SensorStateClass :=
  match e with
  | SuezForeverTotalIncreasingSensor _ => Some TOTAL_INCREASING
  | _ => None
  end.

(** The dictionary [hass.data[DOMAIN][entry.entry_id]]: the two keys the
    platform reads, each present or missing. *)
Record EntryDic := mk_EntryDic {
  dic_coordinator : option Coordinator;
  dic_client : option SuezClient;
}.

Record ConfigEntry := mk_ConfigEntry {
  entry_id : string;
  data : gmap string Z;
}.

(** [async_setup_entry]: the calls of [async_add_entities], each with
    its entities and its [update_before_add] flag.  Every lookup that
    can raise comes before the first call, so a raised [KeyError] means
    that nothing was added.  [DOMAIN] and [CONF_COUNTER_ID] are the
    constants of [const.py]. *)
Definition async_setup_entry (DOMAIN CONF_COUNTER_ID : string)
    (hass_data : gmap string (gmap string EntryDic)) (entry : ConfigEntry)
  : Outcome (list (list Entity * bool)) :=
  match hass_data !! DOMAIN with
  | None => Raise (KeyError DOMAIN)
  | Some entries =>
      match entries !! entry_id entry with
      | None => Raise (KeyError (entry_id entry))
      | Some dic =>
          match dic_coordinator dic with
          | None => Raise (KeyError "coordinator")
          | Some coordinator =>
              match dic_client dic with
              | None => Raise (KeyError "client")
              | Some client =>
                  match data entry !! CONF_COUNTER_ID with
                  | None => Raise (KeyError CONF_COUNTER_ID)
                  | Some counter_id =>
                      Return
                        [ ([ SuezLastDayConsumptionSensor__init__
                               DOMAIN coordinator counter_id;
                             SuezForeverTotalIncreasingSensor__init__
                               DOMAIN coordinator counter_id;
                             SuezPriceSensor__init__
                               DOMAIN coordinator counter_id ],
                           false);
                          ([ SuezAggregatedSensor_
                               (SuezAggregatedSensorEntity.__init__
                                  DOMAIN client counter_id) ],
                           true) ]
                  end
              end
          end
      end
  end.

(** All the entities a registration adds, in the order they are added. *)
Definition added_entities (r : Outcome (list (list Entity * bool)))
  : list Entity :=
  match r with
  | Return batches => concat (map fst batches)
  | Raise _ => []
  end.

(** ** Auxiliary notions, further scripted providers and clients *)

(** A string without the separator of the unique identifiers. *)
Definition no_underscore (s : string) : Prop :=
  Forall (fun a => a ≠ "_"%char) (String.list_ascii_of_string s).

(** The keys of the extra state attributes a successful fetch of the
    legacy sensor assigns. *)
Definition managed_keys : gset string :=
  {[ "this_month_consumption"; "previous_month_consumption";
     "highest_monthly_consumption"; "last_year_overall";
     "this_year_overall"; "history"; "deprecated" ]}.

(** A provider whose session close fails after the four fetches. *)
Definition close_fails_client : SuezAsyncClient :=
  {| check_credentials := mk_Await 1 (Returns true);
     close_session := mk_Await 1 (Raises (PySuezError "closing")) |}.

(** A provider whose credential check does not answer in time. *)
Definition slow_check_client : SuezAsyncClient :=
  {| check_credentials := mk_Await 25 (Returns false);
     close_session := mk_Await 1 (Returns tt) |}.

(** A provider whose credential check fails with a provider error. *)
Definition broken_check_client : SuezAsyncClient :=
  {| check_credentials := mk_Await 1 (Raises (PySuezError "offline"));
     close_session := mk_Await 1 (Returns tt) |}.

(** A provider whose price fetch fails with an error of another kind. *)
Definition type_error_api : SuezData :=
  {| fetch_yesterday_data := mk_Await 1 (Returns (Some yesterday_120));
     get_consumption_index := mk_Await 1 (Returns (Some index_4821_5));
     get_price := mk_Await 1 (Raises TypeError);
     get_alerts := mk_Await 1 (Returns []);
     get_attribution_ := "" |}.

(** A legacy client whose [update()] succeeds but leaves no attribute. *)
Definition empty_update (c : SuezClient) : Outcome unit * SuezClient :=
  (Return tt, {| state := VFloat 7%float; attributes := ∅ |}).

(** A legacy client whose [update()] fails with an error that is not a
    provider error. *)
Definition crashing_update (c : SuezClient) : Outcome unit * SuezClient :=
  (Raise TypeError, c).

(** A legacy client whose month is not a dictionary. *)
Definition malformed_update (c : SuezClient) : Outcome unit * SuezClient :=
  (Return tt,
   {| state := VFloat 7%float;
      attributes :=
        {[ "attribution" := VStr "Data provided by toutsurmoneau.fr";
           "thisMonthConsumption" := VFloat 1%float ]} |}).

(** The time the five answers of a cycle take together. *)
Definition total_delay (c : Coordinator) : nat :=
  delay (fetch_yesterday_data (_data_api c))
  + delay (get_consumption_index (_data_api c))
  + delay (get_price (_data_api c))
  + delay (get_alerts (_data_api c))
  + delay (close_session (_async_client c)).

(** The messages a run has added to the log. *)
Definition new_logged (before after : World) : list string :=
  drop (length (logged before)) (logged after).

Definition is_return {A} (o : Outcome A) : bool :=
  match o with Return _ => true | Raise _ => false end.

(** The debug messages of the first three steps, in the order of the
    cycle. *)
Definition step_messages : list string :=
  [ "updated suez water consumption data";
    "updated suez water consumption index";
    "updated suez water price" ].

(** One assignment [target[item] = value] of a copy loop. *)
Definition insert_item (acc : gmap string PyVal) (kv : string * PyVal)
  : gmap string PyVal :=
  <[kv.1 := kv.2]> acc.

(** The extra state attributes after a fetch of the legacy sensor that
    went through, over those the sensor had before. *)
Definition fetched_extra (this_month previous_month history : gmap string PyVal)
    (highest last_year this_year : PyVal) (before : gmap string PyVal)
  : gmap string PyVal :=
  <["deprecated" := VStr deprecated_notice]>
    (<["history" := VDict history]>
       (<["this_year_overall" := this_year]>
          (<["last_year_overall" := last_year]>
             (<["highest_monthly_consumption" := highest]>
                (<["previous_month_consumption" := VDict previous_month]>
                   (<["this_month_consumption" := VDict this_month]>
                      before)))))).

(** A client that holds the seven attributes the legacy sensor reads,
    the three consumption histories being dictionaries. *)
Definition well_formed_client (c : SuezClient) (attribution : PyVal)
    (this_month previous_month history : gmap string PyVal)
    (highest last_year this_year : PyVal) : Prop :=
  attributes c !! "attribution" = Some attribution
  ∧ attributes c !! "thisMonthConsumption" = Some (VDict this_month)
  ∧ attributes c !! "previousMonthConsumption" = Some (VDict previous_month)
  ∧ attributes c !! "highestMonthlyConsumption" = Some highest
  ∧ attributes c !! "lastYearOverAll" = Some last_year
  ∧ attributes c !! "thisYearOverAll" = Some this_year
  ∧ attributes c !! "history" = Some (VDict history).

(** Why the loop over [self.client.attributes[key]] cannot run, if it
    cannot: the key is missing, or its value is neither a dictionary nor
    the empty string (a number and [None] cannot be iterated; the
    characters of a string cannot index it). *)
Definition iteration_error (key : string) (v : option PyVal) : option Exn :=
  match v with
  | None => Some (KeyError key)
  | Some (VDict _) => None
  | Some (VStr EmptyString) => None
  | Some (VStr (String _ _)) => Some TypeError
  | Some VNone | Some (VFloat _) => Some TypeError
  end.

(** A [hass.data] with one entry of the integration. *)
Definition one_entry_data : gmap string (gmap string EntryDic) :=
  {[ "suez_water" :=
       {[ "entry-1" :=
            {| dic_coordinator :=
                 Some (__init__ valid_client (scripted_api 1 1 1 1));
               dic_client := Some {| state := VNone; attributes := ∅ |} |} ]} ]}.

Definition entry_of_counter (counter_id : Z) : ConfigEntry :=
  {| entry_id := "entry-1"; data := {[ "counter_id" := counter_id ]} |}.

(** * Properties *)

(** ** The run of one step *)

Lemma await_in_time {A} (c : RemoteCall) (a : Await A) dl (w : World) :
  in_time dl w (delay a) ->
  await c a dl w =
    (match reply a with Returns v => Return v | Raises e => Raise e end,
     record_call c (clock w + delay a) w).
Proof.
  intros H. unfold await. destruct dl as [t|]; [|done].
  by rewrite decide_True.
Qed.

Lemma _fetch_last_day_consumption_data_run (t : nat) (w : World) :
  _fetch_last_day_consumption_data (Some t) w =
  awaited FetchYesterdayData (fetch_yesterday_data (_data_api (self w))) t w
    (fun v w' =>
       (Return tt,
        with_log "updated suez water consumption data"
          (with_self (set__last_day v) w'))).
Proof.
  unfold _fetch_last_day_consumption_data, awaited, bind, read, await.
  case_decide; [|done]. by destruct (reply _).
Qed.

Lemma _fetch_consumption_index_run (t : nat) (w : World) :
  _fetch_consumption_index (Some t) w =
  awaited GetConsumptionIndex (get_consumption_index (_data_api (self w))) t w
    (fun v w' =>
       (Return tt,
        with_log "updated suez water consumption index"
          (with_self (set_index v) w'))).
Proof.
  unfold _fetch_consumption_index, awaited, bind, read, await.
  case_decide; [|done]. by destruct (reply _) as [[i|]|].
Qed.

Lemma _fetch_price_run (t : nat) (w : World) :
  _fetch_price (Some t) w =
  awaited GetPrice (get_price (_data_api (self w))) t w
    (fun v w' =>
       (Return tt,
        with_log "updated suez water price"
          (with_self (set__price (pr_price <$> v)) w'))).
Proof.
  unfold _fetch_price, awaited, bind, read, await.
  case_decide; [|done]. by destruct (reply _) as [[p|]|].
Qed.

Lemma _fetch_alerts_run (t : nat) (w : World) :
  _fetch_alerts (Some t) w =
  awaited GetAlerts (get_alerts (_data_api (self w))) t w
    (fun v w' => (Return tt, with_self (set_alerts (Some v)) w')).
Proof.
  unfold _fetch_alerts, awaited, bind, read, await.
  case_decide; [|done]. by destruct (reply _).
Qed.

Lemma close_session_run (t : nat) (w : World) :
  (let! client := read _async_client in
   await CloseSession (close_session client)) (Some t) w =
  awaited CloseSession (close_session (_async_client (self w))) t w
    (fun _ w' => (Return tt, w')).
Proof.
  unfold awaited, bind, read, await.
  case_decide; [|done]. by destruct (reply _) as [[]|].
Qed.

(** Sequencing after a step whose run is known. *)
Lemma bind_run {A B} (m : M A) (k : A -> M B) dl w :
  bind m k dl w =
  match m dl w with
  | (Return a, w') => k a dl w'
  | (Raise e, w') => (Raise e, w')
  end.
Proof. reflexivity. Qed.

(** ** The run of one cycle *)

(** Case analysis on the next step of a run kept in hypothesis [Hr]:
    its await is late, raises or returns. *)
Ltac next_step Hr :=
  rewrite bind_run in Hr;
  first [ rewrite _fetch_last_day_consumption_data_run in Hr
        | rewrite _fetch_consumption_index_run in Hr
        | rewrite _fetch_price_run in Hr
        | rewrite _fetch_alerts_run in Hr
        | rewrite close_session_run in Hr ];
  unfold awaited in Hr;
  cbn [self clock calls logged record_call with_self with_log
       _data_api _async_client set__last_day set_index set__price set_alerts
       fetch_yesterday_data get_consumption_index get_price get_alerts
       close_session] in Hr;
  case_decide;
  [ match type of Hr with
    | context [match reply ?a with _ => _ end] =>
        let Hreply := fresh "Hreply" in
        destruct (reply a) eqn:Hreply
    end
  | ].

(** The deadline tests of [first_stop] agree with those of the run. *)
Ltac same_time :=
  repeat match goal with
  | |- context [decide (?a < ?b)] =>
      first [ rewrite (decide_True (P := a < b)) by lia
            | rewrite (decide_False (P := a < b)) by lia ]
  end.

(** One cycle, read off the script of the provider: where it stops
    decides the outcome, the fields assigned, the calls issued and the
    time spent. *)
Lemma cycle_run (dl : option nat) (w : World) :
  let r := _async_update_data dl w in
  let c := self w in
  snapshot (self r.2) = fields_after (completed c) c
  ∧ _async_client (self r.2) = _async_client c
  ∧ _data_api (self r.2) = _data_api c
  ∧ calls r.2 = calls w ++ take (S (completed c)) cycle_calls
  ∧ clock r.2 = clock w + time_spent 60 0 (script c)
  ∧ clock w ≤ clock r.2 ≤ clock w + 60
  ∧ r.1 = match cycle_stop c with
          | None => Return {[ "update" := clock r.2 ]}
          | Some (_, Raised e) => Raise (reraised e)
          | Some (_, Expired) => Raise TimeoutError
          end.
Proof.
  intros r c. subst c.
  assert (Hr : r = _async_update_data dl w) by reflexivity. clearbody r.
  destruct w as [c t0 cs lg]. cbn [self clock calls].
  destruct c as [[chk cls] [fy gi gp ga attr] ld pr al ix].
  unfold _async_update_data, try_except, asyncio_timeout in Hr.
  unfold completed, cycle_stop, script.
  cbn [first_stop time_spent raised self clock _data_api _async_client
       fetch_yesterday_data get_consumption_index get_price get_alerts
       close_session] in *.
  next_step Hr;
    [next_step Hr;
       [next_step Hr; [next_step Hr; [next_step Hr|..]|..]|..]|..].
  all: subst r; same_time.
  all: rewrite ?Hreply, ?Hreply0, ?Hreply1, ?Hreply2, ?Hreply3; cbn [raised].
  all: unfold fields_after, snapshot, reraised, bind, log, datetime_now, ret,
         raise.
  all: try match goal with |- context [is_PySuezError ?e] =>
         is_var e; destruct e end.
  all: cbn; rewrite ?Hreply, ?Hreply0, ?Hreply1, ?Hreply2; cbn.
  all: rewrite <- ?app_assoc; cbn.
  all: repeat split; try done; try lia.
Qed.

Lemma cycle_stop_bound (c : Coordinator) (k : nat) (s : Stop) :
  cycle_stop c = Some (k, s) -> k < 5.
Proof.
  unfold cycle_stop, script. cbn [first_stop].
  repeat (case_decide; [destruct (raised _)|]); naive_solver lia.
Qed.

Lemma completed_bound (c : Coordinator) : completed c ≤ 5.
Proof.
  unfold completed. destruct (cycle_stop c) as [[k s]|] eqn:H; [|done].
  apply cycle_stop_bound in H. lia.
Qed.

Lemma new_calls_app (w w' : World) (l : list RemoteCall) :
  calls w' = calls w ++ l -> new_calls w w' = l.
Proof. unfold new_calls. intros ->. by rewrite drop_app_length. Qed.

(** The session close is the fifth call of a cycle. *)
Lemma close_in_segment (n : nat) :
  CloseSession ∈ take (S n) cycle_calls <-> 4 ≤ n.
Proof.
  do 4 (destruct n as [|n];
        [split; [intros H; cbn in H;
                 rewrite ?elem_of_cons, elem_of_nil in H;
                 intuition discriminate
                |lia]|]).
  cbn. split; [lia|]. intros _. rewrite !elem_of_cons. tauto.
Qed.

(** A cycle none of whose awaits stops takes the sum of the five
    delays, which is below the timeout, and none of its replies raises. *)
Lemma cycle_stop_None (c : Coordinator) :
  cycle_stop c = None ->
  time_spent 60 0 (script c) = total_delay c
  ∧ total_delay c < 60
  ∧ raised (reply (fetch_yesterday_data (_data_api c))) = None
  ∧ raised (reply (get_consumption_index (_data_api c))) = None
  ∧ raised (reply (get_price (_data_api c))) = None
  ∧ raised (reply (get_alerts (_data_api c))) = None.
Proof.
  unfold cycle_stop, script, total_delay. cbn [first_stop time_spent].
  repeat (case_decide; [|done];
          match goal with
          | |- context [match raised ?r with _ => _ end] =>
              destruct (raised r); [done|]
          end).
  intros _. repeat split. lia.
Qed.

(** ** Failed cycles and the snapshot *)

(** C1, as stated, fails: when the index fetch raises a provider error
    after yesterday's consumption was fetched, the cycle reports
    [UpdateFailed] but [_last_day] already holds the new value, so the
    snapshot differs from the one before the cycle. *)
Lemma C1_snapshot_not_preserved :
  let w := fresh_world valid_client index_fails_api in
  let r := _async_update_data None w in
  cycle_stop (self w) = Some (1, Raised (PySuezError "offline"))
  ∧ r.1 = Raise (UpdateFailed
                   "Suez coordinator error communicating with API: offline"
                   (Some (PySuezError "offline")))
  ∧ _last_day (self w) = None
  ∧ _last_day (self r.2) = Some yesterday_120
  ∧ snapshot (self r.2) ≠ snapshot (self w).
Proof. vm_compute. repeat split; congruence. Qed.

(** C1, amended: when a step of a cycle raises a provider error, the
    failure is reported as [UpdateFailed]; the fields of the steps that
    returned before it hold the values fetched in this cycle, and the
    fields of the failing step and of the steps after it keep the values
    they had before the cycle. *)
Theorem C1_failed_cycle_fields (dl : option nat) (w : World)
    (k : nat) (m : string) :
  cycle_stop (self w) = Some (k, Raised (PySuezError m)) ->
  let r := _async_update_data dl w in
  r.1 = Raise (UpdateFailed
                 ("Suez coordinator error communicating with API: " ++ m)
                 (Some (PySuezError m)))
  ∧ snapshot (self r.2) = fields_after k (self w)
  ∧ (k = 0 -> snapshot (self r.2) = snapshot (self w)).
Proof.
  intros Hstop r.
  destruct (cycle_run dl w) as (Hf & _ & _ & _ & _ & _ & Ho).
  fold r in Hf, Ho. unfold completed in Hf. rewrite Hstop in Hf, Ho.
  repeat split; [done|done|].
  intros ->. by rewrite Hf.
Qed.

Lemma C1_failed_cycle_fields_witness :
  let w := fresh_world valid_client index_fails_api in
  let r := _async_update_data None w in
  r.1 = Raise (UpdateFailed
                 "Suez coordinator error communicating with API: offline"
                 (Some (PySuezError "offline")))
  ∧ snapshot (self r.2) = (Some yesterday_120, None, None, None).
Proof.
  intros w r.
  destruct (C1_failed_cycle_fields None w 1 "offline") as (Ho & Hf & _);
    [reflexivity|].
  split; [exact Ho | exact Hf].
Defined.

(** ** Classification of provider errors *)

(** C3: a provider error raised by a fetch step or by the session close
    leaves [_async_update_data] as [UpdateFailed] with the provider
    error as its cause, and no outcome of [_async_update_data] is a raw
    provider error. *)
Theorem C3_provider_error_reraised (dl : option nat) (w : World) :
  let r := _async_update_data dl w in
  (forall k m,
     cycle_stop (self w) = Some (k, Raised (PySuezError m)) ->
     exists msg, r.1 = Raise (UpdateFailed msg (Some (PySuezError m))))
  ∧ (forall e, r.1 = Raise e -> is_PySuezError e = false).
Proof.
  intros r. destruct (cycle_run dl w) as (_ & _ & _ & _ & _ & _ & Ho).
  fold r in Ho. split.
  - intros k m Hstop. rewrite Hstop in Ho. unfold reraised in Ho.
    cbn [is_PySuezError] in Ho. eauto.
  - intros e He. rewrite He in Ho.
    destruct (cycle_stop (self w)) as [[k [e'|]]|]; [| |done].
    + injection Ho as ->. by destruct e'.
    + by injection Ho as ->.
Qed.

Lemma C3_provider_error_reraised_witness :
  exists msg,
    (_async_update_data None (fresh_world valid_client index_fails_api)).1
    = Raise (UpdateFailed msg (Some (PySuezError "offline"))).
Proof.
  exact (proj1 (C3_provider_error_reraised None
                  (fresh_world valid_client index_fails_api))
           1 "offline" eq_refl).
Defined.

(** ** The timeout of a cycle *)

(** C4, as stated, fails: when the deadline of the cycle expires the
    caller gets the raw [TimeoutError], which is not [UpdateFailed]. *)
Lemma C4_timeout_not_update_failed :
  let w := fresh_world valid_client slow_price_api in
  let r := _async_update_data None w in
  cycle_stop (self w) = Some (2, Expired)
  ∧ r.1 = Raise TimeoutError
  ∧ is_UpdateFailed TimeoutError = false.
Proof. vm_compute. done. Qed.

(** C4, amended: a cycle ends at the latest 60 time units after it
    started, and when the deadline expires during one of its awaits
    [_async_update_data] raises [TimeoutError] itself, at the deadline;
    the [except PySuezError] clause does not turn it into
    [UpdateFailed]. *)
Theorem C4_timeout_raises_TimeoutError (dl : option nat) (w : World)
    (k : nat) :
  cycle_stop (self w) = Some (k, Expired) ->
  let r := _async_update_data dl w in
  r.1 = Raise TimeoutError
  ∧ clock r.2 ≤ clock w + 60
  ∧ new_calls w r.2 = take (S k) cycle_calls.
Proof.
  intros Hstop r.
  destruct (cycle_run dl w) as (_ & _ & _ & Hc & _ & Ht & Ho).
  fold r in Hc, Ht, Ho. unfold completed in Hc. rewrite Hstop in Hc, Ho.
  repeat split; [done|lia|]. by apply new_calls_app.
Qed.

Lemma C4_timeout_raises_TimeoutError_witness :
  let w := fresh_world valid_client slow_price_api in
  let r := _async_update_data None w in
  r.1 = Raise TimeoutError
  ∧ clock r.2 ≤ clock w + 60
  ∧ new_calls w r.2 = [FetchYesterdayData; GetConsumptionIndex; GetPrice].
Proof.
  exact (C4_timeout_raises_TimeoutError None
           (fresh_world valid_client slow_price_api) 2 eq_refl).
Defined.

(** ** The order of the remote calls *)

(** C6: the calls of a cycle are an initial segment of yesterday's
    consumption, index, price, alerts, session close, ending with the
    first call that does not return; the session is closed exactly when
    the four fetches returned, and a cycle that returns has issued all
    five calls. *)
Theorem C6_fixed_sequence (dl : option nat) (w : World) :
  let r := _async_update_data dl w in
  new_calls w r.2 = take (S (completed (self w))) cycle_calls
  ∧ (CloseSession ∈ new_calls w r.2 <-> 4 ≤ completed (self w))
  ∧ (forall d, r.1 = Return d -> new_calls w r.2 = cycle_calls).
Proof.
  intros r. destruct (cycle_run dl w) as (_ & _ & _ & Hc & _ & _ & Ho).
  fold r in Hc, Ho. apply new_calls_app in Hc. rewrite Hc.
  split; [done|]. split; [apply close_in_segment|].
  intros d Hd. rewrite Hd in Ho. unfold completed.
  by destruct (cycle_stop (self w)) as [[k [e|]]|].
Qed.

(** ** Absent results *)

(** C7: when the index fetch or the price fetch returns [None] in time,
    the step returns normally and the field is [None]; when a price
    record is returned, only its [price] attribute is stored.  The same
    holds within every cycle: once the index step, respectively the
    price step, of a cycle has returned, the field holds what the
    provider returned ([None] for no data, the [price] attribute of a
    price record), whatever happens later in the cycle; and a cycle all
    of whose five awaits return a value in time issues its five calls
    and returns normally, whether or not the index and the price are
    [None]. *)
Theorem C7_absent_results (dl : option nat) (w : World) :
  let api := _data_api (self w) in
  (in_time dl w (delay (get_consumption_index api)) ->
   reply (get_consumption_index api) = Returns None ->
   let r := _fetch_consumption_index dl w in
   r.1 = Return tt ∧ index (self r.2) = None)
  ∧ (in_time dl w (delay (get_price api)) ->
     reply (get_price api) = Returns None ->
     let r := _fetch_price dl w in
     r.1 = Return tt ∧ _price (self r.2) = None)
  ∧ (forall p,
       in_time dl w (delay (get_price api)) ->
       reply (get_price api) = Returns (Some p) ->
       let r := _fetch_price dl w in
       r.1 = Return tt ∧ _price (self r.2) = Some (pr_price p))
  ∧ (cycle_stop (self w) = None ->
     let r := _async_update_data dl w in
     r.1 = Return {[ "update" := clock r.2 ]}
     ∧ (reply (get_consumption_index api) = Returns None ->
        index (self r.2) = None)
     ∧ (reply (get_price api) = Returns None -> _price (self r.2) = None))
  ∧ (forall v,
       2 ≤ completed (self w) ->
       reply (get_consumption_index api) = Returns v ->
       index (self (_async_update_data dl w).2) = v)
  ∧ (forall v,
       3 ≤ completed (self w) ->
       reply (get_price api) = Returns v ->
       _price (self (_async_update_data dl w).2) = pr_price <$> v)
  ∧ (forall v1 v2 v3 v4,
       reply (fetch_yesterday_data api) = Returns v1 ->
       reply (get_consumption_index api) = Returns v2 ->
       reply (get_price api) = Returns v3 ->
       reply (get_alerts api) = Returns v4 ->
       reply (close_session (_async_client (self w))) = Returns tt ->
       total_delay (self w) < 60 ->
       let r := _async_update_data dl w in
       r.1 = Return {[ "update" := clock w + total_delay (self w) ]}
       ∧ new_calls w r.2 = cycle_calls
       ∧ snapshot (self r.2) = (v1, v2, pr_price <$> v3, Some v4)).
Proof.
  intros api.
  destruct (cycle_run dl w) as (Hf & _ & _ & Hc & Ht & _ & Ho).
  unfold snapshot, fields_after in Hf. fold api in Hf.
  injection Hf as Hld Hix Hpr Hal.
  split; [|split; [|split; [|split; [|split; [|split]]]]].
  4: {
    intros Hstop r. subst r. unfold completed in Hix, Hpr.
    rewrite Hstop in Ho, Hix, Hpr. cbn in Hix, Hpr.
    split; [done|]. split; intros Hnone.
    - by rewrite Hix, Hnone.
    - by rewrite Hpr, Hnone. }
  4: {
    intros v Hdone Hreply. rewrite Hix, Hreply.
    by rewrite decide_True by done. }
  4: {
    intros v Hdone Hreply. rewrite Hpr, Hreply.
    by rewrite decide_True by done. }
  4: {
    intros v1 v2 v3 v4 H1 H2 H3 H4 H5 Htime r. subst r.
    assert (Hstop : cycle_stop (self w) = None).
    { unfold cycle_stop, script. fold api. rewrite H1, H2, H3, H4, H5.
      unfold total_delay in Htime. fold api in Htime.
      cbn [first_stop raised]. by rewrite !decide_True by lia. }
    destruct (cycle_stop_None _ Hstop) as (Hspent & _).
    unfold completed in Hld, Hix, Hpr, Hal, Hc.
    rewrite Hstop in Ho, Hld, Hix, Hpr, Hal, Hc. rewrite Hspent in Ht.
    rewrite Ho, Ht. split; [done|]. split; [by apply new_calls_app|].
    unfold snapshot. rewrite Hld, Hix, Hpr, Hal, H1, H2, H3, H4.
    by rewrite !decide_True by lia. }
  all: cbv zeta; intros; split.
  all: unfold _fetch_consumption_index, _fetch_price, bind, read.
  all: fold api; rewrite await_in_time by done.
  all: by match goal with H : reply _ = _ |- _ => rewrite H end.
Qed.

Lemma C7_absent_results_witness :
  let w := fresh_world valid_client no_data_api in
  let w' := fresh_world valid_client (scripted_api 1 1 1 1) in
  ((_fetch_consumption_index None w).1 = Return tt
   ∧ index (self (_fetch_consumption_index None w).2) = None)
  ∧ ((_fetch_price None w).1 = Return tt
     ∧ _price (self (_fetch_price None w).2) = None)
  ∧ ((_fetch_price (Some 1060) w').1 = Return tt
     ∧ _price (self (_fetch_price (Some 1060) w').2) = Some 3.25%float)
  ∧ index (self (_async_update_data None w).2) = None
  ∧ _price (self (_async_update_data None w).2) = None
  ∧ index (self (_async_update_data None w').2) = Some index_4821_5
  ∧ _price (self (_async_update_data None w').2) = Some 3.25%float
  ∧ (_async_update_data None w).1 = Return {[ "update" := 1005 ]}
  ∧ new_calls w (_async_update_data None w).2 = cycle_calls
  ∧ snapshot (self (_async_update_data None w).2)
    = (None, None, None, Some []).
Proof.
  intros w w'.
  destruct (C7_absent_results None w) as (Hi & Hp & _ & Hc & _ & _ & Hall).
  destruct (C7_absent_results (Some 1060) w') as (_ & _ & Hs & _).
  destruct (C7_absent_results None w') as (_ & _ & _ & _ & Hix & Hpr & _).
  split; [apply Hi; [exact I | reflexivity]|].
  split; [apply Hp; [exact I | reflexivity]|].
  split; [apply (Hs price_3_25); [vm_compute; lia | reflexivity]|].
  destruct (Hc eq_refl) as (_ & Hix0 & Hpr0).
  split; [apply Hix0; reflexivity|].
  split; [apply Hpr0; reflexivity|].
  split; [apply (Hix (Some index_4821_5)); [vm_compute; lia | reflexivity]|].
  split; [apply (Hpr (Some price_3_25)); [vm_compute; lia | reflexivity]|].
  apply (Hall None None None []);
    [reflexivity | reflexivity | reflexivity | reflexivity | reflexivity
    | vm_compute; lia].
Defined.

(** ** The scripted scenario *)

(** C8: with the scripted adapter (yesterday 120 L on 2024-01-01, index
    4821.5, price 3.25, no alert) a cycle whose answers arrive within
    the timeout returns the time of its completion under the key
    [update] and leaves exactly these values in the four fields. *)
Theorem C8_scripted_cycle (dl : option nat) (w : World)
    (d1 d2 d3 d4 d5 : nat) :
  _data_api (self w) = scripted_api d1 d2 d3 d4 ->
  close_session (_async_client (self w)) = mk_Await d5 (Returns tt) ->
  d1 + d2 + d3 + d4 + d5 < 60 ->
  let r := _async_update_data dl w in
  r.1 = Return {[ "update" := clock w + (d1 + d2 + d3 + d4 + d5) ]}
  ∧ clock r.2 = clock w + (d1 + d2 + d3 + d4 + d5)
  ∧ snapshot (self r.2)
    = (Some yesterday_120, Some index_4821_5, Some 3.25%float, Some [])
  ∧ last_day_native_value (self r.2) = Some 120%float
  ∧ last_day_extra_state_attributes (self r.2)
    = Some {[ "date" := {| year := 2024; month := 1; day := 1 |} ]}
  ∧ total_native_value (self r.2) = Some 4821.5%float
  ∧ price_native_value (self r.2) = Some 3.25%float.
Proof.
  intros Hapi Hclose Hsum r.
  destruct (cycle_run dl w) as (Hf & _ & _ & _ & Ht & _ & Ho).
  fold r in Hf, Ht, Ho.
  assert (Hstop : cycle_stop (self w) = None).
  { unfold cycle_stop, script. rewrite Hapi, Hclose. cbn.
    by rewrite !decide_True by lia. }
  assert (Hspent : time_spent 60 0 (script (self w))
                   = d1 + d2 + d3 + d4 + d5).
  { unfold script. rewrite Hapi, Hclose. cbn.
    by rewrite !decide_True by lia. }
  unfold completed in Hf. rewrite Hstop in Hf, Ho. rewrite Hspent in Ht.
  unfold fields_after in Hf. rewrite Hapi in Hf. cbn in Hf.
  rewrite Ho, Ht. do 3 (split; [done|]).
  unfold snapshot in Hf. injection Hf as Hld Hix Hpr Hal.
  unfold last_day_native_value, last_day_extra_state_attributes,
    total_native_value, price_native_value, consumption_last_day, price.
  by rewrite Hld, Hix, Hpr.
Qed.

Lemma C8_scripted_cycle_witness :
  let w := fresh_world valid_client (scripted_api 2 3 4 5) in
  let r := _async_update_data None w in
  r.1 = Return {[ "update" := 1015 ]}
  ∧ snapshot (self r.2)
    = (Some yesterday_120, Some index_4821_5, Some 3.25%float, Some []).
Proof.
  intros w r.
  destruct (C8_scripted_cycle None w 2 3 4 5 1) as (Ho & _ & Hf & _);
    [reflexivity | reflexivity | lia |].
  split; [exact Ho | exact Hf].
Defined.

(** ** Setup *)

(** The run of [_async_setup], by cases on the credential check. *)
Lemma _async_setup_run (dl : option nat) (w : World) :
  let chk := check_credentials (_async_client (self w)) in
  let cls := close_session (_async_client (self w)) in
  _async_setup dl w =
  if decide (clock w + delay chk < clock w + 20) then
    let w1 := record_call CheckCredentials (clock w + delay chk) w in
    match reply chk with
    | Returns true => await CloseSession cls (Some (clock w + 20)) w1
    | Returns false => (Raise ConfigEntryError, w1)
    | Raises e => (Raise e, w1)
    end
  else (Raise TimeoutError, record_call CheckCredentials (clock w + 20) w).
Proof.
  intros chk cls. unfold _async_setup, asyncio_timeout, bind, read, await.
  fold chk. case_decide; [|done].
  by destruct (reply chk) as [[|]|].
Qed.

(** Once the credentials were found invalid nothing runs any more: the
    phase, the trace of remote calls, the snapshot and the deliveries
    stay as they are. *)
Lemma failed_is_terminal (evs : list Event) (h : Host) (e : Exn) :
  phase h = Failed e ->
  phase (run evs h) = Failed e
  ∧ calls (world (run evs h)) = calls (world h)
  ∧ snapshot (self (world (run evs h))) = snapshot (self (world h))
  ∧ delivered (run evs h) = delivered h.
Proof.
  revert h. induction evs as [|ev evs IH]; intros h Hph; [done|].
  cbn [run foldl]. fold (run evs (step ev h)).
  assert (Hstep : phase (step ev h) = Failed e
                  ∧ calls (world (step ev h)) = calls (world h)
                  ∧ snapshot (self (world (step ev h)))
                    = snapshot (self (world h))
                  ∧ delivered (step ev h) = delivered h).
  { destruct ev; cbn [step]; unfold join; rewrite ?Hph; done. }
  destruct Hstep as (H1 & H2 & H3 & H4).
  destruct (IH _ H1) as (I1 & I2 & I3 & I4).
  by rewrite I1, I2, I3, I4, H2, H3, H4.
Qed.

(** C5: when the credential check answers in time that the credentials
    are invalid, [_async_setup] raises [ConfigEntryError], which is not
    [UpdateFailed]; the host then is in its terminal failed state, and
    whatever is requested afterwards the only remote call ever issued
    is the credential check: no fetch of a cycle runs, and nothing is
    delivered. *)
Theorem C5_invalid_credentials (h : Host) (evs : list Event) :
  phase h = Uninitialized ->
  reply (check_credentials (_async_client (self (world h)))) = Returns false ->
  delay (check_credentials (_async_client (self (world h)))) < 20 ->
  (_async_setup None (world h)).1 = Raise ConfigEntryError
  ∧ is_UpdateFailed ConfigEntryError = false
  ∧ phase (run (Setup :: evs) h) = Failed ConfigEntryError
  ∧ new_calls (world h) (world (run (Setup :: evs) h)) = [CheckCredentials]
  ∧ snapshot (self (world (run (Setup :: evs) h)))
    = snapshot (self (world h))
  ∧ delivered (run (Setup :: evs) h) = delivered h.
Proof.
  intros Hph Hreply Hdelay.
  assert (Hrun : _async_setup None (world h) =
                 (Raise ConfigEntryError,
                  record_call CheckCredentials
                    (clock (world h)
                     + delay (check_credentials
                                (_async_client (self (world h)))))
                    (world h))).
  { rewrite _async_setup_run. cbn zeta.
    rewrite decide_True by lia. by rewrite Hreply. }
  split; [by rewrite Hrun|]. split; [done|].
  cbn [run foldl]. fold (run evs (step Setup h)).
  assert (Hstep : step Setup h =
                  {| phase := Failed ConfigEntryError;
                     world := (_async_setup None (world h)).2;
                     delivered := delivered h |}).
  { cbn [step]. rewrite Hph. by rewrite Hrun. }
  destruct (failed_is_terminal evs (step Setup h) ConfigEntryError)
    as (H1 & H2 & H3 & H4); [by rewrite Hstep|].
  rewrite H1, H3, H4. split; [done|]. split.
  - apply new_calls_app. rewrite H2, Hstep. cbn [world]. by rewrite Hrun.
  - rewrite Hstep. cbn [world delivered]. by rewrite Hrun.
Qed.

Lemma C5_invalid_credentials_witness :
  let h := boot invalid_client (scripted_api 1 1 1 1) 1000 in
  let h' := run [Setup; RequestRefresh 1; TimerTick; CycleEnds;
                 RequestRefresh 2; CycleEnds] h in
  (_async_setup None (world h)).1 = Raise ConfigEntryError
  ∧ phase h' = Failed ConfigEntryError
  ∧ new_calls (world h) (world h') = [CheckCredentials]
  ∧ delivered h' = [].
Proof.
  intros h h'.
  destruct (C5_invalid_credentials h
              [RequestRefresh 1; TimerTick; CycleEnds; RequestRefresh 2;
               CycleEnds])
    as (H1 & _ & H3 & H4 & _ & H6);
    [reflexivity | reflexivity | vm_compute; lia |].
  split; [exact H1|]. split; [exact H3|]. split; [exact H4 | exact H6].
Defined.

(** C9, as stated, fails: with invalid credentials [_async_setup] raises
    before it reaches the session close, which is never called. *)
Lemma C9_session_not_closed_when_invalid :
  let w := fresh_world invalid_client (scripted_api 1 1 1 1) in
  let r := _async_setup None w in
  r.1 = Raise ConfigEntryError
  ∧ calls r.2 = [CheckCredentials]
  ∧ CloseSession ∉ calls r.2.
Proof.
  intros w r. change r with
    (@Raise unit ConfigEntryError,
     {| self := self w; clock := 1001; calls := [CheckCredentials];
        logged := [] |}).
  cbn [fst snd calls]. repeat split.
  rewrite elem_of_cons, elem_of_nil. intuition discriminate.
Qed.

(** C9, amended: [_async_setup] calls the session close exactly when the
    credential check answers in time that the credentials are valid;
    when the check reports them invalid, raises or is cut off by the
    timeout, the close is not called. *)
Theorem C9_close_iff_valid (dl : option nat) (w : World) :
  let chk := check_credentials (_async_client (self w)) in
  let r := _async_setup dl w in
  CloseSession ∈ new_calls w r.2
  <-> (delay chk < 20 ∧ reply chk = Returns true).
Proof.
  intros chk r. subst r. rewrite _async_setup_run. cbn zeta. fold chk.
  assert (Hno : forall t, CloseSession ∉
                  new_calls w (record_call CheckCredentials t w)).
  { intros t. erewrite new_calls_app by reflexivity.
    rewrite elem_of_cons, elem_of_nil. intuition discriminate. }
  assert (Hyes : forall t t',
            CloseSession ∈
              new_calls w (record_call CloseSession t'
                             (record_call CheckCredentials t w))).
  { intros t t'. erewrite new_calls_app
      by (cbn [record_call calls]; by rewrite <- app_assoc).
    cbn. rewrite !elem_of_cons. tauto. }
  case_decide as Htime.
  - destruct (reply chk) as [[|]|e] eqn:Hreply.
    + unfold await. cbn [record_call clock].
      split; [intros _; split; [lia|done]|intros _].
      by case_decide; [destruct (reply _)|]; cbn [snd].
    + split; [by intros ?%Hno|by intros [_ [=]]].
    + split; [by intros ?%Hno|by intros [_ [=]]].
  - split; [by intros ?%Hno|intros [? _]; lia].
Qed.

(** ** Coalescing of refresh requests *)

Lemma run_app (evs1 evs2 : list Event) (h : Host) :
  run (evs1 ++ evs2) h = run evs2 (run evs1 h).
Proof. apply foldl_app. Qed.

(** Requests made while a cycle is running join its waiters and touch
    nothing else. *)
Lemma run_joiners (joiners ws : list Waiter) (h : Host) :
  phase h = Refreshing ws ->
  run (map trigger joiners) h =
  {| phase := Refreshing (ws ++ joiners); world := world h;
     delivered := delivered h |}.
Proof.
  revert ws h. induction joiners as [|x joiners IH]; intros ws h Hph.
  - cbn. rewrite app_nil_r, <- Hph. by destruct h.
  - cbn [map run foldl]. fold (run (map trigger joiners) (step (trigger x) h)).
    assert (Hstep : step (trigger x) h =
                    {| phase := Refreshing (ws ++ [x]); world := world h;
                       delivered := delivered h |}).
    { destruct x; cbn [trigger step]; unfold join; by rewrite Hph. }
    rewrite Hstep. rewrite (IH (ws ++ [x])) by done.
    cbn [world delivered]. by rewrite <- app_assoc.
Qed.

Lemma elem_of_broadcast (o : Outcome (gmap string nat)) (ws : list Waiter)
    (id : nat) (o' : Outcome (gmap string nat)) :
  (id, o') ∈ broadcast o ws <-> o' = o ∧ Observer id ∈ ws.
Proof.
  unfold broadcast. rewrite list_elem_of_In, in_flat_map. split.
  - intros (x & Hx & Hin). destruct x as [|id']; [by destruct Hin|].
    destruct Hin as [[= -> ->]|[]]. by rewrite list_elem_of_In.
  - intros [-> Hin]. exists (Observer id).
    rewrite <- list_elem_of_In. split; [done|]. by left.
Qed.

(** C2: requests and timer ticks that arrive while a cycle is running
    join it.  When the cycle ends the world is the one a single run of
    [_async_update_data] leaves, so each remote operation was called at
    most once, in the order of one cycle; the host is ready again; and
    what is delivered is the outcome of that one run, to every observer
    that awaited the cycle. *)
Theorem C2_single_flight (h : Host) (ws joiners : list Waiter) :
  phase h = Refreshing ws ->
  let h' := run (map trigger joiners ++ [CycleEnds]) h in
  let r := _async_update_data None (world h) in
  world h' = r.2
  ∧ phase h' = Ready
  ∧ new_calls (world h) (world h')
    = take (S (completed (self (world h)))) cycle_calls
  ∧ delivered h' = delivered h ++ broadcast r.1 (ws ++ joiners)
  ∧ (forall id, Observer id ∈ ws ++ joiners -> (id, r.1) ∈ delivered h')
  ∧ (forall id o, (id, o) ∈ broadcast r.1 (ws ++ joiners) -> o = r.1).
Proof.
  intros Hph h' r. subst h'.
  rewrite run_app, (run_joiners joiners ws h Hph).
  cbn [run foldl step phase world delivered]. fold r.
  destruct (cycle_run None (world h)) as (_ & _ & _ & Hc & _).
  fold r in Hc. apply new_calls_app in Hc.
  repeat split; [done|..].
  - intros id Hin. rewrite elem_of_app. right.
    by apply elem_of_broadcast.
  - intros id o Hin. by apply elem_of_broadcast in Hin as [-> _].
Qed.

Lemma C2_single_flight_witness :
  let h := run [Setup; RequestRefresh 1]
             (boot valid_client index_fails_api 1000) in
  let h' := run [RequestRefresh 2; TimerTick; RequestRefresh 3; CycleEnds] h in
  let failure :=
    Raise (UpdateFailed
             "Suez coordinator error communicating with API: offline"
             (Some (PySuezError "offline"))) in
  phase h' = Ready
  ∧ new_calls (world h) (world h') = [FetchYesterdayData; GetConsumptionIndex]
  ∧ delivered h' = [(1, failure); (2, failure); (3, failure)].
Proof.
  intros h h' failure.
  destruct (C2_single_flight h [Observer 1]
              [Observer 2; Timer; Observer 3])
    as (_ & H2 & H3 & H4 & _); [reflexivity|].
  split; [exact H2|]. split; [exact H3 | exact H4].
Defined.

(** ** The legacy aggregated sensor *)

(** On a working client the legacy sensor takes over the state and the
    attributes of the client. *)
Example legacy_update_shows_client_state :
  let r := update working_update shown_sensor in
  r.1 = Return tt
  ∧ _attr_available r.2 = true
  ∧ _attr_native_value r.2 = VFloat 120%float
  ∧ _attr_extra_state_attributes r.2 !! "this_month_consumption"
    = Some (VDict {[ "2024-01-01" := VFloat 120%float ]})
  ∧ _attr_extra_state_attributes r.2 !! "history"
    = Some (VDict {[ "2023-12" := VFloat 7000%float ]})
  ∧ _attr_extra_state_attributes r.2 !! "this_year_overall"
    = Some (VFloat 120%float).
Proof. vm_compute. done. Qed.

Lemma sbind_run {A B} (m : Sync A) (k : A -> Sync B)
    (s : SuezAggregatedSensor) :
  sbind m k s =
  match m s with
  | (Return a, s') => k a s'
  | (Raise e, s') => (Raise e, s')
  end.
Proof. reflexivity. Qed.

(** A provider error of the client is caught by [_fetch_data]: only the
    availability flag and the log of the sensor change. *)
Lemma _fetch_data_failure
    (client_update : SuezClient -> Outcome unit * SuezClient)
    (s : SuezAggregatedSensor) (m : string) :
  (client_update (client s)).1 = Raise (PySuezError m) ->
  _fetch_data client_update s =
  (Return tt,
   {| client := (client_update (client s)).2;
      _attr_native_value := _attr_native_value s;
      _attr_available := false;
      _attr_attribution := _attr_attribution s;
      _attr_extra_state_attributes := _attr_extra_state_attributes s;
      sensor_log := sensor_log s ++ [("Unable to fetch data", None)] |}).
Proof.
  intros Hraise. unfold _fetch_data, stry_except.
  rewrite sbind_run. unfold call_client_update. rewrite Hraise.
  reflexivity.
Qed.

(** C10: when the synchronous client raises a provider error, [update]
    returns normally, the sensor is marked unavailable, and its value,
    its attribution and its extra state attributes are those it had
    before. *)
Theorem C10_legacy_update_failure
    (client_update : SuezClient -> Outcome unit * SuezClient)
    (s : SuezAggregatedSensor) (m : string) :
  (client_update (client s)).1 = Raise (PySuezError m) ->
  let r := update client_update s in
  r.1 = Return tt
  ∧ _attr_available r.2 = false
  ∧ _attr_native_value r.2 = _attr_native_value s
  ∧ _attr_attribution r.2 = _attr_attribution s
  ∧ _attr_extra_state_attributes r.2 = _attr_extra_state_attributes s.
Proof.
  intros Hraise r. subst r. unfold update.
  rewrite sbind_run, (_fetch_data_failure _ _ m Hraise). done.
Qed.

Lemma C10_legacy_update_failure_witness :
  let r := update failing_update shown_sensor in
  r.1 = Return tt
  ∧ _attr_available r.2 = false
  ∧ _attr_native_value r.2 = VFloat 95%float
  ∧ _attr_attribution r.2 = VStr "Data provided by toutsurmoneau.fr"
  ∧ _attr_extra_state_attributes r.2
    = {[ "this_year_overall" := VFloat 95%float ]}.
Proof.
  exact (C10_legacy_update_failure failing_update shown_sensor "down"
           eq_refl).
Defined.

(** * Further properties of the coordinator *)

(** ** Setup *)

(** With valid credentials and both answers within the 20 units of the
    timeout, [_async_setup] returns after the credential check and the
    session close, in this order, and changes nothing else. *)
Theorem setup_valid_credentials (dl : option nat) (w : World) :
  let chk := check_credentials (_async_client (self w)) in
  let cls := close_session (_async_client (self w)) in
  reply chk = Returns true ->
  reply cls = Returns tt ->
  delay chk + delay cls < 20 ->
  _async_setup dl w =
  (Return tt,
   {| self := self w; clock := clock w + delay chk + delay cls;
      calls := calls w ++ [CheckCredentials; CloseSession];
      logged := logged w |}).
Proof.
  intros chk cls Hchk Hcls Htime. rewrite _async_setup_run. cbn zeta.
  fold chk cls. rewrite decide_True by lia. rewrite Hchk.
  rewrite await_in_time by (cbn; lia). rewrite Hcls.
  unfold record_call. cbn [self clock calls logged].
  by rewrite <- app_assoc.
Qed.

Lemma setup_valid_credentials_witness :
  _async_setup None (fresh_world valid_client (scripted_api 1 1 1 1)) =
  (Return tt,
   {| self := __init__ valid_client (scripted_api 1 1 1 1); clock := 1002;
      calls := [CheckCredentials; CloseSession]; logged := [] |}).
Proof.
  apply (setup_valid_credentials None
           (fresh_world valid_client (scripted_api 1 1 1 1)));
    [reflexivity | reflexivity | vm_compute; lia].
Defined.

(** Whatever the provider answers, [_async_setup] leaves the coordinator
    object and the log as they are, issues the credential check and at
    most the session close after it (never a fetch), and ends at the
    latest 20 time units after it started. *)
Theorem setup_touches_nothing (dl : option nat) (w : World) :
  let r := _async_setup dl w in
  self r.2 = self w
  ∧ logged r.2 = logged w
  ∧ (new_calls w r.2 = [CheckCredentials]
     ∨ new_calls w r.2 = [CheckCredentials; CloseSession])
  ∧ clock w ≤ clock r.2 ≤ clock w + 20.
Proof.
  intros r. subst r. rewrite _async_setup_run. cbn zeta.
  set (chk := check_credentials (_async_client (self w))).
  set (cls := close_session (_async_client (self w))).
  assert (H1 : forall t, new_calls w (record_call CheckCredentials t w)
                         = [CheckCredentials]).
  { intros t. by apply new_calls_app. }
  case_decide as Htime.
  - destruct (reply chk) as [[|]|e].
    + unfold await. cbn [record_call clock].
      assert (H2 : forall t t',
                new_calls w (record_call CloseSession t'
                               (record_call CheckCredentials t w))
                = [CheckCredentials; CloseSession]).
      { intros t t'. apply new_calls_app. cbn. by rewrite <- app_assoc. }
      case_decide; [destruct (reply cls)|]; cbn [fst snd];
        rewrite H2; cbn; repeat split; auto; lia.
    + cbn [fst snd]. rewrite H1. cbn. repeat split; auto; lia.
    + cbn [fst snd]. rewrite H1. cbn. repeat split; auto; lia.
  - cbn [fst snd]. rewrite H1. cbn. repeat split; auto; lia.
Qed.

(** The timeout of the setup comes before the verdict on the
    credentials: when the credential check does not answer within 20
    time units, [_async_setup] raises [TimeoutError] at the deadline,
    whatever the check would have answered, and the session is not
    closed; when valid credentials are confirmed in time but the close
    does not finish within the same 20 units, it raises [TimeoutError]
    as well. *)
Theorem setup_timeout (dl : option nat) (w : World) :
  let chk := check_credentials (_async_client (self w)) in
  let cls := close_session (_async_client (self w)) in
  let r := _async_setup dl w in
  (20 ≤ delay chk
   ∨ (reply chk = Returns true ∧ 20 ≤ delay chk + delay cls)) ->
  r.1 = Raise TimeoutError
  ∧ clock r.2 = clock w + 20
  ∧ (20 ≤ delay chk -> new_calls w r.2 = [CheckCredentials]).
Proof.
  intros chk cls r Hlate. subst r. rewrite _async_setup_run. cbn zeta.
  fold chk cls. case_decide as Htime.
  - destruct Hlate as [?|[Hvalid Hlate]]; [lia|]. rewrite Hvalid.
    unfold await. cbn [record_call clock].
    rewrite decide_False by lia. cbn. repeat split. lia.
  - cbn. repeat split. intros _. by apply new_calls_app.
Qed.

Lemma setup_timeout_witness :
  let w := fresh_world slow_check_client (scripted_api 1 1 1 1) in
  let r := _async_setup None w in
  r.1 = Raise TimeoutError
  ∧ clock r.2 = 1020
  ∧ new_calls w r.2 = [CheckCredentials].
Proof.
  intros w r.
  destruct (setup_timeout None w) as (H1 & H2 & H3);
    [left; vm_compute; lia|].
  split; [exact H1|]. split; [exact H2|].
  apply H3. vm_compute. lia.
Defined.

(** [_async_setup] has no handler: an exception raised in time by the
    credential check leaves it unchanged, a provider error included,
    and the session is not closed. *)
Theorem setup_propagates_errors (dl : option nat) (w : World) (e : Exn) :
  let chk := check_credentials (_async_client (self w)) in
  let r := _async_setup dl w in
  reply chk = Raises e ->
  delay chk < 20 ->
  r.1 = Raise e ∧ new_calls w r.2 = [CheckCredentials].
Proof.
  intros chk r Hreply Htime. subst r. rewrite _async_setup_run. cbn zeta.
  fold chk. rewrite decide_True by lia. rewrite Hreply. cbn.
  split; [done|]. by apply new_calls_app.
Qed.

Lemma setup_propagates_errors_witness :
  let w := fresh_world broken_check_client (scripted_api 1 1 1 1) in
  let r := _async_setup None w in
  r.1 = Raise (PySuezError "offline") ∧ new_calls w r.2 = [CheckCredentials].
Proof.
  apply (setup_propagates_errors None
           (fresh_world broken_check_client (scripted_api 1 1 1 1))
           (PySuezError "offline")); [reflexivity | vm_compute; lia].
Defined.

(** ** Cycles *)

Lemma script_same (c1 c2 : Coordinator) :
  _async_client c1 = _async_client c2 ->
  _data_api c1 = _data_api c2 ->
  script c1 = script c2.
Proof. unfold script. by intros -> ->. Qed.

(** An exception of the provider that is not a provider error leaves
    [_async_update_data] as it was raised: only [PySuezError] is turned
    into [UpdateFailed]. *)
Theorem cycle_passes_other_errors (dl : option nat) (w : World)
    (k : nat) (e : Exn) :
  cycle_stop (self w) = Some (k, Raised e) ->
  is_PySuezError e = false ->
  (_async_update_data dl w).1 = Raise e.
Proof.
  intros Hstop Hother.
  destruct (cycle_run dl w) as (_ & _ & _ & _ & _ & _ & Ho).
  rewrite Ho, Hstop. unfold reraised. by rewrite Hother.
Qed.

Lemma cycle_passes_other_errors_witness :
  (_async_update_data None (fresh_world valid_client type_error_api)).1
  = Raise TypeError.
Proof.
  exact (cycle_passes_other_errors None
           (fresh_world valid_client type_error_api) 2 TypeError
           eq_refl eq_refl).
Defined.

(** A cycle returns exactly when none of its awaits stops. *)
Lemma cycle_returns_stop (dl : option nat) (w : World) :
  (exists d, (_async_update_data dl w).1 = Return d)
  <-> cycle_stop (self w) = None.
Proof.
  destruct (cycle_run dl w) as (_ & _ & _ & _ & _ & _ & Ho).
  rewrite Ho. destruct (cycle_stop (self w)) as [[k [e|]]|]; split;
    first [done | by intros [d [=]] | eauto].
Qed.

(** [_async_update_data] returns exactly when its five awaits all
    return before the deadline; what it returns is the time of its
    completion, which is the start plus the five delays and lies
    strictly before the deadline. *)
Theorem cycle_returns_iff (dl : option nat) (w : World) :
  let r := _async_update_data dl w in
  ((exists d, r.1 = Return d) <-> cycle_stop (self w) = None)
  ∧ (forall d, r.1 = Return d ->
       d = {[ "update" := clock w + total_delay (self w) ]}
       ∧ clock r.2 = clock w + total_delay (self w)
       ∧ total_delay (self w) < 60).
Proof.
  intros r.
  destruct (cycle_run dl w) as (_ & _ & _ & _ & Ht & _ & Ho).
  fold r in Ht, Ho.
  pose proof (cycle_returns_stop dl w) as Hiff. fold r in Hiff.
  split; [done|].
  intros d Hd.
  assert (Hstop : cycle_stop (self w) = None) by (apply Hiff; eauto).
  destruct (cycle_stop_None _ Hstop) as (Hspent & Hlt & _).
  rewrite Hstop, Hd in Ho. rewrite Hspent in Ht.
  injection Ho as ->. by rewrite Ht.
Qed.

(** Refreshing twice against a provider that answers the same way: when
    the first cycle returns, the second returns as well and leaves the
    same four fields; only the time stamp moves on, by the same
    duration. *)
Theorem cycle_idempotent (dl dl' : option nat) (w : World)
    (d : gmap string nat) :
  let r1 := _async_update_data dl w in
  let r2 := _async_update_data dl' r1.2 in
  r1.1 = Return d ->
  r2.1 = Return {[ "update" := clock r1.2 + total_delay (self w) ]}
  ∧ snapshot (self r2.2) = snapshot (self r1.2).
Proof.
  intros r1 r2 Hd.
  destruct (cycle_run dl w) as (Hf1 & Hc1 & Ha1 & _ & _ & _ & Ho1).
  destruct (cycle_run dl' r1.2) as (Hf2 & _ & _ & _ & Ht2 & _ & Ho2).
  fold r1 in Hf1, Hc1, Ha1, Ho1, Hf2, Ht2, Ho2. fold r2 in Hf2, Ht2, Ho2.
  assert (Hstop : cycle_stop (self w) = None).
  { apply (cycle_returns_stop dl w). eauto. }
  assert (Hscript : script (self r1.2) = script (self w))
    by by apply script_same.
  assert (Hstop2 : cycle_stop (self r1.2) = None).
  { unfold cycle_stop. by rewrite Hscript. }
  destruct (cycle_stop_None _ Hstop) as (Hspent & _).
  rewrite Hstop2 in Ho2. rewrite Hscript, Hspent in Ht2.
  split; [by rewrite Ho2, Ht2|].
  rewrite Hf2, Hf1. unfold completed. rewrite Hstop, Hstop2.
  unfold fields_after. rewrite Ha1.
  by rewrite !decide_True by lia.
Qed.

Lemma cycle_idempotent_witness :
  let w := fresh_world valid_client (scripted_api 2 3 4 5) in
  let r1 := _async_update_data None w in
  let r2 := _async_update_data None r1.2 in
  r2.1 = Return {[ "update" := 1030 ]}
  ∧ snapshot (self r2.2) = snapshot (self r1.2).
Proof.
  exact (cycle_idempotent None None
           (fresh_world valid_client (scripted_api 2 3 4 5))
           {[ "update" := 1015 ]} eq_refl).
Defined.

(** Each fetch step writes its own field and no other, and writes it
    only when its await returns: then the field holds what the provider
    returned, an absent day ([None]) and an empty alert list included. *)
Theorem fetch_steps_frame (dl : option nat) (w : World) :
  let c := self w in
  (let r := _fetch_last_day_consumption_data dl w in
   snapshot (self r.2) =
   (if is_return r.1
    then default None (returned (reply (fetch_yesterday_data (_data_api c))))
    else _last_day c,
    index c, _price c, alerts c))
  ∧ (let r := _fetch_consumption_index dl w in
     snapshot (self r.2) =
     (_last_day c,
      if is_return r.1
      then default None
             (returned (reply (get_consumption_index (_data_api c))))
      else index c,
      _price c, alerts c))
  ∧ (let r := _fetch_price dl w in
     snapshot (self r.2) =
     (_last_day c, index c,
      if is_return r.1
      then pr_price <$>
             default None (returned (reply (get_price (_data_api c))))
      else _price c,
      alerts c))
  ∧ (let r := _fetch_alerts dl w in
     snapshot (self r.2) =
     (_last_day c, index c, _price c,
      if is_return r.1
      then returned (reply (get_alerts (_data_api c)))
      else alerts c)).
Proof.
  intros c. subst c.
  unfold _fetch_last_day_consumption_data, _fetch_consumption_index,
    _fetch_price, _fetch_alerts, bind, read, await.
  repeat split; cbn zeta.
  all: destruct dl as [t|]; [case_decide|].
  all: try done.
  all: match goal with
       | |- context [reply ?a] => destruct (reply a) as [[?|]|] || destruct (reply a)
       end; done.
Qed.

(** When only the session close fails, the cycle is reported as failed
    although the four fetches went through: every field holds the value
    fetched in this cycle and all five calls were issued. *)
Theorem close_failure_keeps_fetched (dl : option nat) (w : World)
    (v1 : option DayDataResult) (v2 : option ConsumptionIndexResult)
    (v3 : option PriceResult) (v4 : AlertResult) (m : string) :
  let api := _data_api (self w) in
  let r := _async_update_data dl w in
  reply (fetch_yesterday_data api) = Returns v1 ->
  reply (get_consumption_index api) = Returns v2 ->
  reply (get_price api) = Returns v3 ->
  reply (get_alerts api) = Returns v4 ->
  reply (close_session (_async_client (self w))) = Raises (PySuezError m) ->
  total_delay (self w) < 60 ->
  r.1 = Raise (UpdateFailed
                 ("Suez coordinator error communicating with API: " ++ m)
                 (Some (PySuezError m)))
  ∧ snapshot (self r.2) = (v1, v2, pr_price <$> v3, Some v4)
  ∧ new_calls w r.2 = cycle_calls.
Proof.
  intros api r H1 H2 H3 H4 H5 Htime.
  destruct (cycle_run dl w) as (Hf & _ & _ & Hc & _ & _ & Ho).
  fold r in Hf, Hc, Ho.
  assert (Hstop : cycle_stop (self w) = Some (4, Raised (PySuezError m))).
  { unfold cycle_stop, script. fold api. rewrite H1, H2, H3, H4, H5.
    unfold total_delay in Htime. fold api in Htime.
    cbn [first_stop raised]. by rewrite !decide_True by lia. }
  unfold completed in Hf, Hc. rewrite Hstop in Hf, Hc, Ho.
  split; [done|]. split; [|by apply new_calls_app].
  rewrite Hf. unfold fields_after. fold api. rewrite H1, H2, H3, H4.
  by rewrite !decide_True by lia.
Qed.

Lemma close_failure_keeps_fetched_witness :
  let w := fresh_world close_fails_client (scripted_api 1 1 1 1) in
  let r := _async_update_data None w in
  r.1 = Raise (UpdateFailed
                 "Suez coordinator error communicating with API: closing"
                 (Some (PySuezError "closing")))
  ∧ snapshot (self r.2)
    = (Some yesterday_120, Some index_4821_5, Some 3.25%float, Some [])
  ∧ new_calls w r.2 = cycle_calls.
Proof.
  apply (close_failure_keeps_fetched None
           (fresh_world close_fails_client (scripted_api 1 1 1 1))
           (Some yesterday_120) (Some index_4821_5) (Some price_3_25) []
           "closing");
    [reflexivity | reflexivity | reflexivity | reflexivity | reflexivity
    | vm_compute; lia].
Defined.

(** After a cycle that returns, the three views show what the provider
    returned in this cycle: the day's consumption with its date, the
    index and the price, and no value where the provider had none. *)
Theorem views_after_cycle (dl : option nat) (w : World)
    (d : gmap string nat)
    (v1 : option DayDataResult) (v2 : option ConsumptionIndexResult)
    (v3 : option PriceResult) :
  let api := _data_api (self w) in
  let r := _async_update_data dl w in
  r.1 = Return d ->
  reply (fetch_yesterday_data api) = Returns v1 ->
  reply (get_consumption_index api) = Returns v2 ->
  reply (get_price api) = Returns v3 ->
  last_day_native_value (self r.2) = day_consumption <$> v1
  ∧ last_day_extra_state_attributes (self r.2)
    = (fun x => {[ "date" := dd_date x ]}) <$> v1
  ∧ total_native_value (self r.2) = (fun i => content_index (content i)) <$> v2
  ∧ price_native_value (self r.2) = pr_price <$> v3.
Proof.
  intros api r Hd H1 H2 H3.
  destruct (cycle_run dl w) as (Hf & _).
  fold r in Hf.
  assert (Hstop : cycle_stop (self w) = None).
  { apply (cycle_returns_stop dl w). eauto. }
  unfold completed in Hf. rewrite Hstop in Hf.
  unfold fields_after, snapshot in Hf. fold api in Hf.
  rewrite H1, H2, H3 in Hf. rewrite !decide_True in Hf by lia.
  injection Hf as Hld Hix Hpr _.
  unfold last_day_native_value, last_day_extra_state_attributes,
    total_native_value, price_native_value, consumption_last_day, price.
  rewrite Hld, Hix, Hpr. by destruct v1, v2.
Qed.

Lemma views_after_cycle_witness :
  let w := fresh_world valid_client no_data_api in
  let r := _async_update_data None w in
  last_day_native_value (self r.2) = None
  ∧ last_day_extra_state_attributes (self r.2) = None
  ∧ total_native_value (self r.2) = None
  ∧ price_native_value (self r.2) = None.
Proof.
  exact (views_after_cycle None (fresh_world valid_client no_data_api)
           {[ "update" := 1005 ]} None None None
           eq_refl eq_refl eq_refl eq_refl).
Defined.

(** The messages one cycle logs: the debug message of each of the first
    three steps that returned, and the completion message when the
    whole cycle returned. *)
Lemma cycle_log (dl : option nat) (w : World) :
  let r := _async_update_data dl w in
  new_logged w r.2 =
  take (completed (self w)) step_messages
  ++ (if decide (completed (self w) = 5)
      then ["Suez update completed"] else []).
Proof.
  intros r.
  assert (Hr : r = _async_update_data dl w) by reflexivity. clearbody r.
  destruct w as [c t0 cs lg]. unfold new_logged. cbn [self logged].
  destruct c as [[chk cls] [fy gi gp ga attr] ld pr al ix].
  unfold _async_update_data, try_except, asyncio_timeout in Hr.
  unfold completed, cycle_stop, script.
  cbn [first_stop raised self clock _data_api _async_client
       fetch_yesterday_data get_consumption_index get_price get_alerts
       close_session] in *.
  next_step Hr;
    [next_step Hr;
       [next_step Hr; [next_step Hr; [next_step Hr|..]|..]|..]|..].
  all: subst r; same_time.
  all: rewrite ?Hreply, ?Hreply0, ?Hreply1, ?Hreply2, ?Hreply3; cbn [raised].
  all: unfold bind, log, datetime_now, ret, raise.
  all: try match goal with |- context [is_PySuezError ?e] =>
         is_var e; destruct e end.
  all: cbn [fst snd logged self clock calls is_PySuezError record_call
              with_log with_self].
  all: rewrite <- ?app_assoc; rewrite ?drop_app_length; try done.
  all: by rewrite drop_all.
Qed.

(** The completion message ["Suez update completed"] is logged exactly
    when the cycle returns; a cycle that fails logs only the messages of
    the steps that went through. *)
Theorem completion_logged_iff_returns (dl : option nat) (w : World) :
  let r := _async_update_data dl w in
  "Suez update completed" ∈ new_logged w r.2 <-> exists d, r.1 = Return d.
Proof.
  intros r. pose proof (cycle_log dl w) as Hlog. fold r in Hlog.
  rewrite Hlog.
  pose proof (cycle_returns_stop dl w) as Hiff. fold r in Hiff.
  rewrite Hiff. unfold completed.
  destruct (cycle_stop (self w)) as [[k s]|] eqn:Hstop.
  - apply cycle_stop_bound in Hstop.
    rewrite decide_False by lia. rewrite app_nil_r.
    split; [|done]. intros Hin%elem_of_take. destruct Hin as (i & Hin & _).
    unfold step_messages in Hin.
    destruct i as [|[|[|i]]]; cbn in Hin; discriminate.
  - rewrite decide_True by done. split; [done|]. intros _.
    rewrite elem_of_app. right. rewrite elem_of_cons. by left.
Qed.

(** * Further properties of the legacy sensor *)

(** ** The copy loops *)

Lemma set_extra_set_extra (m m' : gmap string PyVal)
    (s : SuezAggregatedSensor) :
  set_extra m (set_extra m' s) = set_extra m s.
Proof. reflexivity. Qed.

Lemma set_extra_id (s : SuezAggregatedSensor) :
  set_extra (_attr_extra_state_attributes s) s = s.
Proof. by destruct s. Qed.

(** Inserting the items of a list without repeated keys one after the
    other gives the map of the list, over what was there before. *)
Lemma foldl_insert_item (kvs : list (string * PyVal))
    (d0 : gmap string PyVal) :
  NoDup (kvs.*1) ->
  foldl insert_item d0 kvs = list_to_map kvs ∪ d0.
Proof.
  revert d0. induction kvs as [|[k v] kvs IH]; intros d0 Hnd.
  - cbn. by rewrite (left_id_L ∅ (∪)).
  - cbn [foldl]. rewrite fmap_cons, NoDup_cons in Hnd.
    destruct Hnd as [Hk Hnd]. rewrite IH by done.
    unfold insert_item. cbn [fst snd]. rewrite list_to_map_cons.
    rewrite <- insert_union_l. symmetry. apply insert_union_r.
    by apply not_elem_of_list_to_map_1.
Qed.

(** The body of a copy loop, run over items that are keys of the source
    dictionary, inserts them one after the other into the target. *)
Lemma for_each_copy (dst src : string) (d : gmap string PyVal)
    (kvs : list (string * PyVal)) (d0 : gmap string PyVal)
    (s : SuezAggregatedSensor) :
  attributes (client s) !! src = Some (VDict d) ->
  (forall k v, (k, v) ∈ kvs -> d !! k = Some v) ->
  _attr_extra_state_attributes s !! dst = Some (VDict d0) ->
  for_each (kvs.*1)
    (fun item =>
       let* d := client_attribute src in
       let* v := lift (getitem d item) in
       extra_setitem2 dst item v) s
  = (Return tt,
     set_extra (<[dst := VDict (foldl insert_item d0 kvs)]>
                  (_attr_extra_state_attributes s)) s).
Proof.
  set (body := fun item : string => _).
  revert d0 s. induction kvs as [|[k v] kvs IH]; intros d0 s Hsrc Hkeys Hdst.
  - cbn. unfold sret. by rewrite insert_id, set_extra_id.
  - cbn [fmap list_fmap fst for_each]. rewrite sbind_run.
    assert (Hbody : body k s =
                    (Return tt,
                     set_extra (<[dst := VDict (<[k := v]> d0)]>
                                  (_attr_extra_state_attributes s)) s)).
    { unfold body. rewrite sbind_run. unfold client_attribute.
      rewrite Hsrc. rewrite sbind_run. unfold lift, getitem.
      rewrite (Hkeys k v) by (by left).
      unfold extra_setitem2. by rewrite Hdst. }
    rewrite Hbody. rewrite (IH (<[k := v]> d0)).
    + cbn [set_extra _attr_extra_state_attributes foldl].
      by rewrite insert_insert_eq.
    + done.
    + intros k' v' Hin. apply Hkeys. by right.
    + cbn. by rewrite lookup_insert_eq.
Qed.

(** A copy loop over a dictionary of the client leaves a copy of that
    dictionary under the target key. *)
Lemma copy_items_run (dst src : string) (d d0 : gmap string PyVal)
    (s : SuezAggregatedSensor) :
  attributes (client s) !! src = Some (VDict d) ->
  _attr_extra_state_attributes s !! dst = Some (VDict d0) ->
  copy_items dst src s
  = (Return tt,
     set_extra (<[dst := VDict (d ∪ d0)]> (_attr_extra_state_attributes s)) s).
Proof.
  intros Hsrc Hdst. unfold copy_items. rewrite sbind_run.
  unfold client_attribute at 1. rewrite Hsrc.
  rewrite sbind_run. unfold lift at 1, iter.
  change (map fst (map_to_list d)) with ((map_to_list d).*1).
  rewrite (for_each_copy dst src d (map_to_list d) d0 s Hsrc); [|  |done].
  - rewrite foldl_insert_item by apply NoDup_fst_map_to_list.
    by rewrite list_to_map_to_list.
  - intros k v. by rewrite elem_of_map_to_list.
Qed.

(** Resetting a key to the empty dictionary and copying into it. *)
Lemma reset_and_copy (dst src : string) (d : gmap string PyVal)
    (k : Sync unit) (s : SuezAggregatedSensor) :
  attributes (client s) !! src = Some (VDict d) ->
  (extra_setitem dst (VDict ∅) ;;; copy_items dst src ;;; k) s
  = k (set_extra (<[dst := VDict d]> (_attr_extra_state_attributes s)) s).
Proof.
  intros Hsrc. rewrite sbind_run. unfold extra_setitem at 1.
  rewrite sbind_run.
  rewrite (copy_items_run dst src d ∅) by (done || apply lookup_insert_eq).
  cbn [set_extra _attr_extra_state_attributes].
  by rewrite insert_insert_eq, (right_id_L ∅ (∪)).
Qed.

(** Reading an attribute of the client and storing it under a key. *)
Lemma read_and_store (dst src : string) (v : PyVal)
    (k : Sync unit) (s : SuezAggregatedSensor) :
  attributes (client s) !! src = Some v ->
  ((let* v := client_attribute src in extra_setitem dst v) ;;; k) s
  = k (set_extra (<[dst := v]> (_attr_extra_state_attributes s)) s).
Proof.
  intros Hsrc. rewrite !sbind_run. unfold client_attribute at 1.
  by rewrite Hsrc.
Qed.

(** ** A fetch that goes through *)

(** The run of [_fetch_data] when [client.update()] returns and the
    client holds its seven attributes. *)
Lemma _fetch_data_success
    (client_update : SuezClient -> Outcome unit * SuezClient)
    (s : SuezAggregatedSensor) (c' : SuezClient) (attribution : PyVal)
    (this_month previous_month history : gmap string PyVal)
    (highest last_year this_year : PyVal) :
  client_update (client s) = (Return tt, c') ->
  well_formed_client c' attribution this_month previous_month history
    highest last_year this_year ->
  _fetch_data client_update s =
  (Return tt,
   {| client := c';
      _attr_native_value := state c';
      _attr_available := true;
      _attr_attribution := attribution;
      _attr_extra_state_attributes :=
        fetched_extra this_month previous_month history
          highest last_year this_year (_attr_extra_state_attributes s);
      sensor_log := sensor_log s |}).
Proof.
  intros Hupd (Ha & H1 & H2 & H3 & H4 & H5 & H6).
  unfold _fetch_data, stry_except.
  rewrite sbind_run. unfold call_client_update at 1. rewrite Hupd.
  cbn [fst snd]. rewrite sbind_run. rewrite sbind_run.
  unfold set__attr_native_value at 1.
  rewrite sbind_run. unfold set__attr_available at 1.
  rewrite sbind_run. rewrite sbind_run.
  unfold client_attribute at 1.
  cbn [client sensor_with_client]. rewrite Ha.
  unfold set__attr_attribution at 1.
  rewrite (reset_and_copy _ _ this_month) by exact H1.
  rewrite (reset_and_copy _ _ previous_month) by exact H2.
  rewrite (read_and_store _ _ highest) by exact H3.
  rewrite (read_and_store _ _ last_year) by exact H4.
  rewrite (read_and_store _ _ this_year) by exact H5.
  rewrite (reset_and_copy _ _ history) by exact H6.
  reflexivity.
Qed.

(** The run of [update] when the fetch goes through. *)
Lemma update_success_run
    (client_update : SuezClient -> Outcome unit * SuezClient)
    (s : SuezAggregatedSensor) (c' : SuezClient) (attribution : PyVal)
    (this_month previous_month history : gmap string PyVal)
    (highest last_year this_year : PyVal) :
  client_update (client s) = (Return tt, c') ->
  well_formed_client c' attribution this_month previous_month history
    highest last_year this_year ->
  update client_update s =
  (Return tt,
   {| client := c';
      _attr_native_value := state c';
      _attr_available := true;
      _attr_attribution := attribution;
      _attr_extra_state_attributes :=
        fetched_extra this_month previous_month history
          highest last_year this_year (_attr_extra_state_attributes s);
      sensor_log :=
        sensor_log s ++ [("Suez data state is: %s", Some (state c'))] |}).
Proof.
  intros Hupd Hwf. unfold update. rewrite sbind_run.
  by rewrite (_fetch_data_success _ _ _ _ _ _ _ _ _ _ Hupd Hwf).
Qed.

(** The run of [update] when the client raises a provider error. *)
Lemma update_failure_run
    (client_update : SuezClient -> Outcome unit * SuezClient)
    (s : SuezAggregatedSensor) (m : string) :
  (client_update (client s)).1 = Raise (PySuezError m) ->
  update client_update s =
  (Return tt,
   {| client := (client_update (client s)).2;
      _attr_native_value := _attr_native_value s;
      _attr_available := false;
      _attr_attribution := _attr_attribution s;
      _attr_extra_state_attributes := _attr_extra_state_attributes s;
      sensor_log :=
        sensor_log s
        ++ [("Unable to fetch data", None);
            ("Suez data state is: %s", Some (_attr_native_value s))] |}).
Proof.
  intros Hraise. unfold update. rewrite sbind_run.
  rewrite (_fetch_data_failure _ _ m Hraise).
  unfold sbind, sensor_logging, native_value.
  cbn [client _attr_native_value _attr_available _attr_attribution
       _attr_extra_state_attributes sensor_log].
  by rewrite <- app_assoc.
Qed.

(** When [client.update()] returns and the client holds its seven
    attributes, [update] returns: the sensor is available, shows the
    state and the attribution of the client, and its extra state
    attributes hold a copy of each of the three histories, equal to the
    dictionary of the client, the three totals and the deprecation
    notice. *)
Theorem legacy_update_success
    (client_update : SuezClient -> Outcome unit * SuezClient)
    (s : SuezAggregatedSensor) (c' : SuezClient) (attribution : PyVal)
    (this_month previous_month history : gmap string PyVal)
    (highest last_year this_year : PyVal) :
  client_update (client s) = (Return tt, c') ->
  well_formed_client c' attribution this_month previous_month history
    highest last_year this_year ->
  let r := update client_update s in
  let extra := _attr_extra_state_attributes r.2 in
  r.1 = Return tt
  ∧ _attr_available r.2 = true
  ∧ _attr_native_value r.2 = state c'
  ∧ _attr_attribution r.2 = attribution
  ∧ extra !! "this_month_consumption" = Some (VDict this_month)
  ∧ extra !! "previous_month_consumption" = Some (VDict previous_month)
  ∧ extra !! "highest_monthly_consumption" = Some highest
  ∧ extra !! "last_year_overall" = Some last_year
  ∧ extra !! "this_year_overall" = Some this_year
  ∧ extra !! "history" = Some (VDict history)
  ∧ extra !! "deprecated" = Some (VStr deprecated_notice).
Proof.
  intros Hupd Hwf r extra. subst extra r.
  rewrite (update_success_run _ _ _ _ _ _ _ _ _ _ Hupd Hwf).
  cbn [fst snd _attr_available _attr_native_value _attr_attribution
       _attr_extra_state_attributes].
  unfold fetched_extra. do 4 (split; [done|]).
  repeat split; by rewrite !lookup_insert.
Qed.

Lemma legacy_update_success_witness :
  let r := update working_update shown_sensor in
  r.1 = Return tt
  ∧ _attr_available r.2 = true
  ∧ _attr_native_value r.2 = VFloat 120%float
  ∧ _attr_extra_state_attributes r.2 !! "history"
    = Some (VDict {[ "2023-12" := VFloat 7000%float ]}).
Proof.
  intros r.
  destruct (legacy_update_success working_update shown_sensor
              (working_update (client shown_sensor)).2
              (VStr "Data provided by toutsurmoneau.fr")
              {[ "2024-01-01" := VFloat 120%float ]} ∅
              {[ "2023-12" := VFloat 7000%float ]}
              (VFloat 9000%float) (VFloat 80000%float) (VFloat 120%float))
    as (H1 & H2 & H3 & _ & _ & _ & _ & _ & _ & H10 & _);
    [reflexivity | repeat split; reflexivity |].
  split; [exact H1|]. split; [exact H2|]. split; [exact H3 | exact H10].
Defined.

(** A successful update of the legacy sensor never removes an entry of
    the extra state attributes: their keys afterwards are those the
    sensor had before together with the seven keys a fetch assigns. *)
Theorem legacy_update_keys
    (client_update : SuezClient -> Outcome unit * SuezClient)
    (s : SuezAggregatedSensor) (c' : SuezClient) (attribution : PyVal)
    (this_month previous_month history : gmap string PyVal)
    (highest last_year this_year : PyVal) :
  client_update (client s) = (Return tt, c') ->
  well_formed_client c' attribution this_month previous_month history
    highest last_year this_year ->
  let r := update client_update s in
  r.1 = Return tt
  ∧ dom (_attr_extra_state_attributes r.2)
    = dom (_attr_extra_state_attributes s) ∪ managed_keys
  ∧ (forall k, k ∉ managed_keys ->
       _attr_extra_state_attributes r.2 !! k
       = _attr_extra_state_attributes s !! k).
Proof.
  intros Hupd Hwf r. subst r. unfold update. rewrite sbind_run.
  rewrite (_fetch_data_success _ _ _ _ _ _ _ _ _ _ Hupd Hwf).
  cbn. unfold fetched_extra, managed_keys. repeat split.
  - rewrite !dom_insert_L. set_solver.
  - intros k Hk. rewrite !lookup_insert_ne; [done|set_solver..].
Qed.

Lemma legacy_update_keys_witness :
  let r := update working_update shown_sensor in
  r.1 = Return tt
  ∧ dom (_attr_extra_state_attributes r.2)
    = {[ "this_year_overall" ]} ∪ managed_keys.
Proof.
  intros r.
  destruct (legacy_update_keys working_update shown_sensor
              (working_update (client shown_sensor)).2
              (VStr "Data provided by toutsurmoneau.fr")
              {[ "2024-01-01" := VFloat 120%float ]} ∅
              {[ "2023-12" := VFloat 7000%float ]}
              (VFloat 9000%float) (VFloat 80000%float) (VFloat 120%float))
    as (H1 & H2 & _); [reflexivity | repeat split; reflexivity |].
  split; [exact H1|]. fold r in H2. rewrite H2.
  unfold shown_sensor. cbn [_attr_extra_state_attributes].
  by rewrite dom_singleton_L.
Defined.

(** ** Fetches that break off *)

(** When [client.update()] returns but the client has no attribution,
    the [KeyError] is not caught: it leaves [update], the sensor is
    marked available and already shows the new state of the client,
    while its attribution and its extra state attributes are those it
    had before. *)
Theorem legacy_missing_attribution
    (client_update : SuezClient -> Outcome unit * SuezClient)
    (s : SuezAggregatedSensor) (c' : SuezClient) :
  client_update (client s) = (Return tt, c') ->
  attributes c' !! "attribution" = None ->
  update client_update s =
  (Raise (KeyError "attribution"),
   {| client := c';
      _attr_native_value := state c';
      _attr_available := true;
      _attr_attribution := _attr_attribution s;
      _attr_extra_state_attributes := _attr_extra_state_attributes s;
      sensor_log := sensor_log s |}).
Proof.
  intros Hupd Hnone. unfold update, _fetch_data, stry_except.
  rewrite sbind_run. rewrite sbind_run.
  unfold call_client_update at 1. rewrite Hupd.
  cbn [fst snd]. rewrite sbind_run. rewrite sbind_run.
  unfold set__attr_native_value at 1.
  rewrite sbind_run. unfold set__attr_available at 1.
  rewrite sbind_run. rewrite sbind_run.
  unfold client_attribute at 1.
  cbn [client sensor_with_client]. rewrite Hnone.
  reflexivity.
Qed.

Lemma legacy_missing_attribution_witness :
  (update empty_update shown_sensor).1 = Raise (KeyError "attribution")
  ∧ _attr_available (update empty_update shown_sensor).2 = true
  ∧ _attr_native_value (update empty_update shown_sensor).2 = VFloat 7%float.
Proof.
  rewrite (legacy_missing_attribution empty_update shown_sensor
             (empty_update (client shown_sensor)).2 eq_refl eq_refl).
  repeat split.
Defined.

(** The first four statements of [_fetch_data], when the client has an
    attribution. *)
Lemma legacy_fetch_prefix
    (client_update : SuezClient -> Outcome unit * SuezClient)
    (s : SuezAggregatedSensor) (c' : SuezClient) (attribution : PyVal)
    (k : Sync unit) :
  client_update (client s) = (Return tt, c') ->
  attributes c' !! "attribution" = Some attribution ->
  (call_client_update client_update ;;;
   (let* st := (fun s => (Return (state (client s)), s)) in
    set__attr_native_value st) ;;;
   set__attr_available true ;;;
   (let* a := client_attribute "attribution" in set__attr_attribution a) ;;;
   k) s
  = k {| client := c';
         _attr_native_value := state c';
         _attr_available := true;
         _attr_attribution := attribution;
         _attr_extra_state_attributes := _attr_extra_state_attributes s;
         sensor_log := sensor_log s |}.
Proof.
  intros Hupd Ha.
  rewrite sbind_run. unfold call_client_update at 1. rewrite Hupd.
  cbn [fst snd]. rewrite sbind_run. rewrite sbind_run.
  unfold set__attr_native_value at 1.
  rewrite sbind_run. unfold set__attr_available at 1.
  rewrite sbind_run. rewrite sbind_run.
  unfold client_attribute at 1.
  cbn [client sensor_with_client]. rewrite Ha.
  reflexivity.
Qed.

(** A copy loop whose source cannot be read or iterated raises before
    it assigns anything. *)
Lemma copy_items_error (dst src : string) (e : Exn)
    (s : SuezAggregatedSensor) :
  iteration_error src (attributes (client s) !! src) = Some e ->
  copy_items dst src s = (Raise e, s) ∧ is_PySuezError e = false.
Proof.
  intros Herr. unfold copy_items. rewrite sbind_run.
  unfold client_attribute at 1.
  destruct (attributes (client s) !! src) as [[| |[|a str]|d]|] eqn:Hsrc;
    cbn in Herr; try discriminate; injection Herr as <-; try done.
  split; [|done].
  rewrite sbind_run. unfold lift at 1, iter.
  cbn [String.list_ascii_of_string map for_each].
  rewrite sbind_run. rewrite sbind_run.
  unfold client_attribute at 1. by rewrite Hsrc.
Qed.

(** When the month's consumption of the client is missing or cannot be
    iterated, the [KeyError] or [TypeError] leaves [update]; by then
    the entry [this_month_consumption] of the sensor has been replaced
    by an empty dictionary, and the other entries are untouched. *)
Theorem legacy_unreadable_month
    (client_update : SuezClient -> Outcome unit * SuezClient)
    (s : SuezAggregatedSensor) (c' : SuezClient) (attribution : PyVal)
    (e : Exn) :
  client_update (client s) = (Return tt, c') ->
  attributes c' !! "attribution" = Some attribution ->
  iteration_error "thisMonthConsumption"
    (attributes c' !! "thisMonthConsumption") = Some e ->
  update client_update s =
  (Raise e,
   {| client := c';
      _attr_native_value := state c';
      _attr_available := true;
      _attr_attribution := attribution;
      _attr_extra_state_attributes :=
        <["this_month_consumption" := VDict ∅]>
          (_attr_extra_state_attributes s);
      sensor_log := sensor_log s |}).
Proof.
  intros Hupd Ha Herr. unfold update, _fetch_data, stry_except.
  rewrite sbind_run.
  rewrite (legacy_fetch_prefix _ _ c' attribution) by done.
  rewrite sbind_run. unfold extra_setitem at 1.
  rewrite sbind_run.
  destruct (copy_items_error "this_month_consumption"
              "thisMonthConsumption" e
              (set_extra (<["this_month_consumption" := VDict ∅]>
                            (_attr_extra_state_attributes s))
                 {| client := c';
                    _attr_native_value := state c';
                    _attr_available := true;
                    _attr_attribution := attribution;
                    _attr_extra_state_attributes :=
                      _attr_extra_state_attributes s;
                    sensor_log := sensor_log s |}) Herr)
    as [Hcopy Hother].
  cbn [_attr_extra_state_attributes] in *.
  rewrite Hcopy. by rewrite Hother.
Qed.

Lemma legacy_unreadable_month_witness :
  (update malformed_update shown_sensor).1 = Raise TypeError
  ∧ _attr_extra_state_attributes (update malformed_update shown_sensor).2
    = <["this_month_consumption" := VDict ∅]>
        {[ "this_year_overall" := VFloat 95%float ]}.
Proof.
  rewrite (legacy_unreadable_month malformed_update shown_sensor
             (malformed_update (client shown_sensor)).2
             (VStr "Data provided by toutsurmoneau.fr") TypeError
             eq_refl eq_refl eq_refl).
  split; reflexivity.
Defined.

(** An exception of [client.update()] that is not a provider error is
    not caught: it leaves [update], and the sensor keeps its value, its
    availability, its attribution and its extra state attributes. *)
Theorem legacy_update_other_error
    (client_update : SuezClient -> Outcome unit * SuezClient)
    (s : SuezAggregatedSensor) (e : Exn) :
  (client_update (client s)).1 = Raise e ->
  is_PySuezError e = false ->
  update client_update s
  = (Raise e, sensor_with_client (client_update (client s)).2 s).
Proof.
  intros Hraise Hother. unfold update, _fetch_data, stry_except.
  rewrite sbind_run. rewrite sbind_run.
  unfold call_client_update at 1. rewrite Hraise.
  by rewrite Hother.
Qed.

Lemma legacy_update_other_error_witness :
  update crashing_update shown_sensor = (Raise TypeError, shown_sensor).
Proof.
  exact (legacy_update_other_error crashing_update shown_sensor TypeError
           eq_refl eq_refl).
Defined.

(** ** Updates one after the other *)

(** A failed update after a successful one: the sensor becomes
    unavailable but goes on showing the state, the attribution and the
    extra state attributes of the last successful update. *)
Theorem legacy_failure_keeps_last_values
    (update1 update2 : SuezClient -> Outcome unit * SuezClient)
    (s : SuezAggregatedSensor) (c1 : SuezClient) (attribution : PyVal)
    (this_month previous_month history : gmap string PyVal)
    (highest last_year this_year : PyVal) (m : string) :
  update1 (client s) = (Return tt, c1) ->
  well_formed_client c1 attribution this_month previous_month history
    highest last_year this_year ->
  (update2 c1).1 = Raise (PySuezError m) ->
  let r := update update2 (update update1 s).2 in
  r.1 = Return tt
  ∧ _attr_available r.2 = false
  ∧ _attr_native_value r.2 = state c1
  ∧ _attr_attribution r.2 = attribution
  ∧ _attr_extra_state_attributes r.2
    = fetched_extra this_month previous_month history
        highest last_year this_year (_attr_extra_state_attributes s).
Proof.
  intros Hupd Hwf Hraise r. subst r.
  rewrite (update_success_run _ _ _ _ _ _ _ _ _ _ Hupd Hwf).
  cbn [snd]. by rewrite update_failure_run with (m := m).
Qed.

Lemma legacy_failure_keeps_last_values_witness :
  let r := update failing_update (update working_update shown_sensor).2 in
  r.1 = Return tt
  ∧ _attr_available r.2 = false
  ∧ _attr_native_value r.2 = VFloat 120%float.
Proof.
  intros r.
  destruct (legacy_failure_keeps_last_values working_update failing_update
              shown_sensor (working_update (client shown_sensor)).2
              (VStr "Data provided by toutsurmoneau.fr")
              {[ "2024-01-01" := VFloat 120%float ]} ∅
              {[ "2023-12" := VFloat 7000%float ]}
              (VFloat 9000%float) (VFloat 80000%float) (VFloat 120%float)
              "down")
    as (H1 & H2 & H3 & _);
    [reflexivity | repeat split; reflexivity | reflexivity |].
  split; [exact H1|]. split; [exact H2 | exact H3].
Defined.

(** A successful update after a failed one: the sensor is available
    again and shows the state of the client. *)
Theorem legacy_recovers
    (update1 update2 : SuezClient -> Outcome unit * SuezClient)
    (s : SuezAggregatedSensor) (c2 : SuezClient) (attribution : PyVal)
    (this_month previous_month history : gmap string PyVal)
    (highest last_year this_year : PyVal) (m : string) :
  (update1 (client s)).1 = Raise (PySuezError m) ->
  update2 (update1 (client s)).2 = (Return tt, c2) ->
  well_formed_client c2 attribution this_month previous_month history
    highest last_year this_year ->
  let r1 := update update1 s in
  let r2 := update update2 r1.2 in
  _attr_available r1.2 = false
  ∧ r2.1 = Return tt
  ∧ _attr_available r2.2 = true
  ∧ _attr_native_value r2.2 = state c2
  ∧ _attr_extra_state_attributes r2.2
    = fetched_extra this_month previous_month history
        highest last_year this_year (_attr_extra_state_attributes s).
Proof.
  intros Hraise Hupd Hwf r1 r2. subst r1 r2.
  rewrite (update_failure_run _ _ m Hraise). cbn [snd].
  by rewrite (update_success_run _ _ c2 attribution this_month
                previous_month history highest last_year this_year).
Qed.

Lemma legacy_recovers_witness :
  let r1 := update failing_update shown_sensor in
  let r2 := update working_update r1.2 in
  _attr_available r1.2 = false
  ∧ r2.1 = Return tt
  ∧ _attr_available r2.2 = true
  ∧ _attr_native_value r2.2 = VFloat 120%float.
Proof.
  intros r1 r2.
  destruct (legacy_recovers failing_update working_update
              shown_sensor (working_update (client shown_sensor)).2
              (VStr "Data provided by toutsurmoneau.fr")
              {[ "2024-01-01" := VFloat 120%float ]} ∅
              {[ "2023-12" := VFloat 7000%float ]}
              (VFloat 9000%float) (VFloat 80000%float) (VFloat 120%float)
              "down")
    as (H1 & H2 & H3 & H4 & _);
    [reflexivity | reflexivity | repeat split; reflexivity |].
  split; [exact H1|]. split; [exact H2|]. split; [exact H3 | exact H4].
Defined.

(** Assigning the entries of a fetch twice is assigning them once. *)
Lemma fetched_extra_idempotent
    (this_month previous_month history : gmap string PyVal)
    (highest last_year this_year : PyVal) (before : gmap string PyVal) :
  fetched_extra this_month previous_month history highest last_year this_year
    (fetched_extra this_month previous_month history
       highest last_year this_year before)
  = fetched_extra this_month previous_month history
      highest last_year this_year before.
Proof.
  apply map_eq. intros k. unfold fetched_extra.
  rewrite !lookup_insert. repeat case_decide; congruence.
Qed.

(** Updating again from a client that holds the same figures changes
    nothing in what the sensor shows: value, availability, attribution
    and extra state attributes are those of the first update. *)
Theorem legacy_update_twice
    (update1 update2 : SuezClient -> Outcome unit * SuezClient)
    (s : SuezAggregatedSensor) (c1 c2 : SuezClient) (attribution : PyVal)
    (this_month previous_month history : gmap string PyVal)
    (highest last_year this_year : PyVal) :
  update1 (client s) = (Return tt, c1) ->
  update2 c1 = (Return tt, c2) ->
  state c2 = state c1 ->
  well_formed_client c1 attribution this_month previous_month history
    highest last_year this_year ->
  well_formed_client c2 attribution this_month previous_month history
    highest last_year this_year ->
  let r1 := update update1 s in
  let r2 := update update2 r1.2 in
  r2.1 = Return tt
  ∧ _attr_native_value r2.2 = _attr_native_value r1.2
  ∧ _attr_available r2.2 = _attr_available r1.2
  ∧ _attr_attribution r2.2 = _attr_attribution r1.2
  ∧ _attr_extra_state_attributes r2.2 = _attr_extra_state_attributes r1.2.
Proof.
  intros Hupd1 Hupd2 Hstate Hwf1 Hwf2 r1 r2. subst r1 r2.
  rewrite (update_success_run _ _ _ _ _ _ _ _ _ _ Hupd1 Hwf1).
  cbn [snd].
  rewrite (update_success_run _ _ c2 attribution this_month
             previous_month history highest last_year this_year)
    by done.
  cbn [fst snd _attr_native_value _attr_available _attr_attribution
       _attr_extra_state_attributes].
  by rewrite fetched_extra_idempotent.
Qed.

Lemma legacy_update_twice_witness :
  let r1 := update working_update shown_sensor in
  let r2 := update working_update r1.2 in
  r2.1 = Return tt
  ∧ _attr_extra_state_attributes r2.2 = _attr_extra_state_attributes r1.2.
Proof.
  intros r1 r2.
  destruct (legacy_update_twice working_update working_update
              shown_sensor (working_update (client shown_sensor)).2
              (working_update (client shown_sensor)).2
              (VStr "Data provided by toutsurmoneau.fr")
              {[ "2024-01-01" := VFloat 120%float ]} ∅
              {[ "2023-12" := VFloat 7000%float ]}
              (VFloat 9000%float) (VFloat 80000%float) (VFloat 120%float))
    as (H1 & _ & _ & _ & H5);
    [reflexivity | reflexivity | reflexivity
    | repeat split; reflexivity | repeat split; reflexivity |].
  split; [exact H1 | exact H5].
Defined.

(** * Properties of the entities *)

(** ** Unique identifiers *)

Lemma no_underscore_cons (a : ascii) (s : string) :
  no_underscore (String a s) <-> a ≠ "_"%char ∧ no_underscore s.
Proof.
  unfold no_underscore. cbn [String.list_ascii_of_string].
  apply (Forall_cons (fun b : ascii => b ≠ "_"%char)).
Qed.

Lemma pretty_N_char_no_underscore (x : N) : pretty_N_char x ≠ "_"%char.
Proof. unfold pretty_N_char. by repeat case_match. Qed.

Lemma pretty_N_go_no_underscore (x : N) (s : string) :
  no_underscore s -> no_underscore (pretty_N_go x s).
Proof.
  revert s. induction (N.lt_wf_0 x) as [x _ IH]. intros s Hs.
  destruct (decide (x = 0)%N) as [->|Hx].
  - by rewrite pretty_N_go_0.
  - rewrite pretty_N_go_step by lia. apply IH.
    + apply N.div_lt; lia.
    + apply no_underscore_cons. split; [|done].
      apply pretty_N_char_no_underscore.
Qed.

Lemma pretty_N_no_underscore (x : N) : no_underscore (pretty x).
Proof.
  unfold pretty, pretty_N. case_decide.
  - apply no_underscore_cons. split; [done|]. by apply Forall_nil.
  - apply pretty_N_go_no_underscore. by apply Forall_nil.
Qed.

(** The decimal notation of an integer has no underscore. *)
Lemma pretty_Z_no_underscore (x : Z) : no_underscore (pretty x).
Proof.
  destruct x as [|p|p]; unfold pretty, pretty_Z.
  - apply no_underscore_cons. split; [done|]. by apply Forall_nil.
  - apply pretty_N_no_underscore.
  - apply no_underscore_cons. split; [done|]. apply pretty_N_no_underscore.
Qed.

(** Two strings cut at their first underscore. *)
Lemma split_at_underscore (u1 u2 v1 v2 : string) :
  no_underscore u1 -> no_underscore u2 ->
  (u1 ++ "_" ++ v1 = u2 ++ "_" ++ v2)%string ->
  u1 = u2 ∧ v1 = v2.
Proof.
  revert u2. induction u1 as [|a u1 IH]; intros [|b u2] H1 H2 Heq;
    cbn in Heq.
  - injection Heq as Heq. split; [done | exact Heq].
  - injection Heq as <- _. apply no_underscore_cons in H2. by destruct H2.
  - injection Heq as -> _. apply no_underscore_cons in H1. by destruct H1.
  - injection Heq as -> Heq.
    apply no_underscore_cons in H1 as [_ H1].
    apply no_underscore_cons in H2 as [_ H2].
    by destruct (IH u2 H1 H2 Heq) as [-> ->].
Qed.

Lemma unique_id_cancel (counter1 counter2 : Z) (name1 name2 : string) :
  unique_id counter1 name1 = unique_id counter2 name2 ->
  counter1 = counter2 ∧ name1 = name2.
Proof.
  unfold unique_id. intros Heq.
  apply split_at_underscore in Heq as [Hc ->];
    [|apply pretty_Z_no_underscore..].
  split; [|done]. by apply (inj pretty).
Qed.

(** A unique identifier tells the counter and the sensor: two entities
    have the same unique identifier exactly when they belong to the
    same counter and have the same name. *)
Theorem unique_id_inj (counter1 counter2 : Z) (name1 name2 : string) :
  unique_id counter1 name1 = unique_id counter2 name2
  <-> counter1 = counter2 ∧ name1 = name2.
Proof.
  split; [apply unique_id_cancel|]. by intros [-> ->].
Qed.

(** ** Registration *)

(** When the dictionary of the entry, its coordinator, its client and
    the counter identifier are all there, [async_setup_entry] makes two
    calls: the first adds the last-day, the total and the price sensor
    of the coordinator, in this order and without an update before they
    are added; the second adds the legacy sensor of the client alone,
    with an update before it is added.  Their unique identifiers are
    pairwise distinct, each is made of the counter and the translation
    key, and all four belong to the device of the counter. *)
Theorem setup_entry_adds_four (DOMAIN CONF_COUNTER_ID : string)
    (hass_data : gmap string (gmap string EntryDic)) (entry : ConfigEntry)
    (entries : gmap string EntryDic) (dic : EntryDic)
    (coordinator : Coordinator) (client : SuezClient) (counter_id : Z) :
  hass_data !! DOMAIN = Some entries ->
  entries !! entry_id entry = Some dic ->
  dic_coordinator dic = Some coordinator ->
  dic_client dic = Some client ->
  data entry !! CONF_COUNTER_ID = Some counter_id ->
  let r := async_setup_entry DOMAIN CONF_COUNTER_ID hass_data entry in
  r = Return
        [ ([ SuezLastDayConsumptionSensor
               (SuezSensorEntity.__init__ DOMAIN coordinator counter_id
                  "water_usage_last_day");
             SuezForeverTotalIncreasingSensor
               (SuezSensorEntity.__init__ DOMAIN coordinator counter_id
                  "water_usage_forever_total");
             SuezPriceSensor
               (SuezSensorEntity.__init__ DOMAIN coordinator counter_id
                  "price_sensor") ],
           false);
          ([ SuezAggregatedSensor_
               (SuezAggregatedSensorEntity.__init__ DOMAIN client
                  counter_id) ],
           true) ]
  ∧ entity_translation_key <$> added_entities r
    = [ "water_usage_last_day"; "water_usage_forever_total";
        "price_sensor"; "water_usage_yesterday" ]
  ∧ NoDup (entity_unique_id <$> added_entities r)
  ∧ (forall e, e ∈ added_entities r ->
       entity_unique_id e = unique_id counter_id (entity_translation_key e)
       ∧ entity_device_info e = device_info DOMAIN counter_id).
Proof.
  intros H1 H2 H3 H4 H5 r. subst r. unfold async_setup_entry.
  rewrite H1, H2, H3, H4, H5. split; [done|]. split; [done|].
  cbn [added_entities map fst concat app fmap list_fmap entity_unique_id
       SuezLastDayConsumptionSensor__init__
       SuezForeverTotalIncreasingSensor__init__ SuezPriceSensor__init__
       SuezSensorEntity.__init__ SuezSensorEntity._attr_unique_id
       SuezAggregatedSensorEntity.__init__
       SuezAggregatedSensorEntity._attr_unique_id].
  split.
  - repeat (apply NoDup_cons; split);
      [rewrite ?elem_of_cons, elem_of_nil; intros Hin..|apply NoDup_nil_2].
    all: repeat (destruct Hin as [Hin|Hin]); try done.
    all: by apply unique_id_cancel in Hin as [_ [=]].
  - intros e. rewrite !elem_of_cons, elem_of_nil.
    intros [->|[->|[->|[->|[]]]]]; done.
Qed.

Lemma setup_entry_adds_four_witness :
  let r := async_setup_entry "suez_water" "counter_id" one_entry_data
             (entry_of_counter 7) in
  entity_unique_id <$> added_entities r
  = [ "7_water_usage_last_day"; "7_water_usage_forever_total";
      "7_price_sensor"; "7_water_usage_yesterday" ]
  ∧ NoDup (entity_unique_id <$> added_entities r).
Proof.
  intros r.
  destruct (setup_entry_adds_four "suez_water" "counter_id" one_entry_data
              (entry_of_counter 7)
              {[ "entry-1" :=
                   {| dic_coordinator :=
                        Some (__init__ valid_client (scripted_api 1 1 1 1));
                      dic_client :=
                        Some {| state := VNone; attributes := ∅ |} |} ]}
              {| dic_coordinator :=
                   Some (__init__ valid_client (scripted_api 1 1 1 1));
                 dic_client := Some {| state := VNone; attributes := ∅ |} |}
              (__init__ valid_client (scripted_api 1 1 1 1))
              {| state := VNone; attributes := ∅ |} 7%Z)
    as (_ & _ & Hnd & _);
    [reflexivity | reflexivity | reflexivity | reflexivity | reflexivity |].
  split; [reflexivity | exact Hnd].
Defined.

(** Entities registered for two different counters never share a unique
    identifier. *)
Theorem setup_entry_counters_apart (DOMAIN CONF_COUNTER_ID : string)
    (hass_data : gmap string (gmap string EntryDic))
    (entry1 entry2 : ConfigEntry) (counter1 counter2 : Z)
    (e1 e2 : Entity) :
  data entry1 !! CONF_COUNTER_ID = Some counter1 ->
  data entry2 !! CONF_COUNTER_ID = Some counter2 ->
  counter1 ≠ counter2 ->
  e1 ∈ added_entities
         (async_setup_entry DOMAIN CONF_COUNTER_ID hass_data entry1) ->
  e2 ∈ added_entities
         (async_setup_entry DOMAIN CONF_COUNTER_ID hass_data entry2) ->
  entity_unique_id e1 ≠ entity_unique_id e2.
Proof.
  intros Hc1 Hc2 Hne Hin1 Hin2 Heq.
  assert (Hid : forall entry counter e,
            data entry !! CONF_COUNTER_ID = Some counter ->
            e ∈ added_entities
                  (async_setup_entry DOMAIN CONF_COUNTER_ID hass_data entry) ->
            exists name, entity_unique_id e = unique_id counter name).
  { intros entry counter e Hc. unfold async_setup_entry. rewrite Hc.
    destruct (hass_data !! DOMAIN) as [entries|];
      [|by intros ?%elem_of_nil].
    destruct (entries !! entry_id entry) as [dic|];
      [|by intros ?%elem_of_nil].
    destruct (dic_coordinator dic); [|by intros ?%elem_of_nil].
    destruct (dic_client dic); [|by intros ?%elem_of_nil].
    cbn. rewrite !elem_of_cons, elem_of_nil.
    intros [->|[->|[->|[->|[]]]]]; cbn; eauto. }
  destruct (Hid _ _ _ Hc1 Hin1) as [n1 Hn1].
  destruct (Hid _ _ _ Hc2 Hin2) as [n2 Hn2].
  rewrite Hn1, Hn2 in Heq. by apply unique_id_cancel in Heq as [? _].
Qed.

Lemma setup_entry_counters_apart_witness :
  entity_unique_id
    (SuezPriceSensor__init__ "suez_water"
       (__init__ valid_client (scripted_api 1 1 1 1)) 7)
  ≠ entity_unique_id
      (SuezPriceSensor__init__ "suez_water"
         (__init__ valid_client (scripted_api 1 1 1 1)) 8).
Proof.
  apply (setup_entry_counters_apart "suez_water" "counter_id" one_entry_data
           (entry_of_counter 7) (entry_of_counter 8) 7 8).
  - reflexivity.
  - reflexivity.
  - lia.
  - apply list_elem_of_further, list_elem_of_further, list_elem_of_here.
  - apply list_elem_of_further, list_elem_of_further, list_elem_of_here.
Defined.

(** When something is missing, [async_setup_entry] raises the
    [KeyError] of the first missing key, in the order the source looks
    them up, and adds no entity; otherwise it adds four. *)
Theorem setup_entry_missing (DOMAIN CONF_COUNTER_ID : string)
    (hass_data : gmap string (gmap string EntryDic)) (entry : ConfigEntry) :
  let r := async_setup_entry DOMAIN CONF_COUNTER_ID hass_data entry in
  let dic := hass_data !! DOMAIN ≫= (.!! entry_id entry) in
  match r with
  | Return _ =>
      length (added_entities r) = 4
      ∧ is_Some (dic ≫= dic_coordinator)
      ∧ is_Some (dic ≫= dic_client)
      ∧ is_Some (data entry !! CONF_COUNTER_ID)
  | Raise e =>
      added_entities r = []
      ∧ e = (if decide (hass_data !! DOMAIN = None) then KeyError DOMAIN
             else if decide (dic = None) then KeyError (entry_id entry)
             else if decide (dic ≫= dic_coordinator = None)
                  then KeyError "coordinator"
             else if decide (dic ≫= dic_client = None)
                  then KeyError "client"
             else KeyError CONF_COUNTER_ID)
  end.
Proof.
  intros r dic. subst r dic. unfold async_setup_entry.
  destruct (hass_data !! DOMAIN) as [entries|]; cbn; [|done].
  destruct (entries !! entry_id entry) as [dic|]; cbn; [|done].
  destruct (dic_coordinator dic); cbn; [|done].
  destruct (dic_client dic); cbn; [|done].
  destruct (data entry !! CONF_COUNTER_ID); cbn; [|done].
  repeat split; eauto.
Qed.
